(** * Receipt processor: the points engine and the receipt store

    A shallow embedding of [receiptHandler.go]: the scoring function
    [findPoints], the two HTTP handlers [handleProcessReceipts] and
    [handleGetReceiptPoints], and the library functions of Go's standard
    library they call ([strconv.ParseFloat], [strconv.Atoi],
    [strings.TrimSpace], [strings.Split], [math.Floor], [math.Ceil],
    [math.Mod], the UTF-8 decoding of a [range] loop over a string).

    Conventions.
    - A Go [string] is a sequence of bytes: Rocq's [string], whose
      characters are the 256 byte values.
    - Go's [int] is the 64-bit signed integer of the usual server targets:
      a [Z] with the wrap-around of every arithmetic operation written out.
    - A [float64] is a [spec_float] read at binary64 ([prec = 53],
      [emax = 1024]).  *)

From Stdlib Require Import ZArith List String Ascii Bool Lia DecimalString.
From Stdlib Require Import PeanoNat.
From Stdlib Require Import Floats.SpecFloat.
Import ListNotations.

Local Open Scope string_scope.
Local Open Scope Z_scope.

(** ** Go's [int] *)

Module GoInt.

Definition minInt : Z := - 2 ^ 63.
Definition maxInt : Z := 2 ^ 63 - 1.

(** The value of a mathematical integer once stored in an [int]. *)
Definition wrap (z : Z) : Z := (z + 2 ^ 63) mod 2 ^ 64 - 2 ^ 63.

Definition inRange (z : Z) : bool := (minInt <=? z) && (z <=? maxInt).

Definition add (a b : Z) : Z := wrap (a + b).

(** [a % b] for [b <> 0]: the remainder has the sign of the dividend. *)
Definition rem (a b : Z) : Z := Z.rem a b.

End GoInt.

(** ** [float64] *)

Module Float64.

Definition prec : Z := 53.
Definition emax : Z := 1024.

Definition float64 : Type := spec_float.

(** A finite triple [(s, m, e)] stands for [(-1)^s * m * 2^e].  The
    operations that round ([round_scaled], [round_ratio], [mul], [div])
    return the normalised triple of binary64; the exact operations
    ([Floor], [Ceil], [Mod]) return a triple of the exact value, and every
    operation reads its arguments by value. *)

(** Round-to-nearest-even of the integer [n] scaled by [2^e]. *)
Definition round_scaled (n e : Z) : float64 :=
  binary_normalize prec emax n e false.

(** [float64(n)] for an integer [n]. *)
Definition of_int (n : Z) : float64 := round_scaled n 0.

(** Round-to-nearest-even of the rational [(-1)^s * n / d]. *)
Definition round_ratio (s : bool) (n d : positive) : float64 :=
  let '(q, e, l) := SFdiv_core_binary prec emax (Zpos n) 0 (Zpos d) 0 in
  binary_round_aux prec emax s q e l.

Definition is_nan (x : float64) : bool :=
  match x with S754_nan => true | _ => false end.

Definition is_finite (x : float64) : bool :=
  match x with S754_zero _ | S754_finite _ _ _ => true | _ => false end.

(** The operator [==]: equality of values; NaN differs from everything,
    the two zeros are equal. *)
Definition eqb (x y : float64) : bool :=
  match x, y with
  | S754_nan, _ | _, S754_nan => false
  | S754_zero _, S754_zero _ => true
  | S754_infinity sx, S754_infinity sy => Bool.eqb sx sy
  | S754_finite sx mx ex, S754_finite sy my ey =>
      let ez := Z.min ex ey in
      Bool.eqb sx sy
      && (Z.shiftl (Zpos mx) (ex - ez) =? Z.shiftl (Zpos my) (ey - ez))
  | _, _ => false
  end.

(** The operator [*]. *)
Definition mul (x y : float64) : float64 :=
  match x, y with
  | S754_finite sx mx ex, S754_finite sy my ey =>
      binary_round prec emax (xorb sx sy) (mx * my) (ex + ey)
  | _, _ => SFmul prec emax x y
  end.

(** The operator [/]. *)
Definition div (x y : float64) : float64 := SFdiv prec emax x y.

(** The integer [floor ((-1)^s * m * 2^e)]. *)
Definition floorZ (s : bool) (m : positive) (e : Z) : Z :=
  if 0 <=? e then cond_Zopp s (Z.shiftl (Zpos m) e)
  else Z.shiftr (cond_Zopp s (Zpos m)) (- e).

(** The integer [ceil ((-1)^s * m * 2^e)]. *)
Definition ceilZ (s : bool) (m : positive) (e : Z) : Z :=
  - floorZ (negb s) m e.

(** The float of an integer that needs no rounding; [szero] is the sign
    of the result when it is zero. *)
Definition exact_int (n : Z) (szero : bool) : float64 :=
  match n with
  | Z0 => S754_zero szero
  | Zpos p => S754_finite false p 0
  | Zneg p => S754_finite true p 0
  end.

(** [math.Floor]: the greatest integer value not above [x];
    [Floor(±0) = ±0], [Floor(±Inf) = ±Inf], [Floor(NaN) = NaN]. *)
Definition Floor (x : float64) : float64 :=
  match x with
  | S754_finite s m e =>
      if 0 <=? e then x else exact_int (floorZ s m e) false
  | _ => x
  end.

(** [math.Ceil]: the least integer value not below [x]; the same special
    cases; a negative [x] above [-1] gives [-0]. *)
Definition Ceil (x : float64) : float64 :=
  match x with
  | S754_finite s m e =>
      if 0 <=? e then x else exact_int (ceilZ s m e) s
  | _ => x
  end.

(** [math.Mod(x, y)]: the remainder of [x / y], with the sign of [x] and
    a magnitude below that of [y]; exact.
    [Mod(±Inf, y) = NaN], [Mod(NaN, y) = NaN], [Mod(x, 0) = NaN],
    [Mod(x, ±Inf) = x], [Mod(x, NaN) = NaN]. *)
Definition Mod (x y : float64) : float64 :=
  match x, y with
  | S754_nan, _ | _, S754_nan => S754_nan
  | S754_infinity _, _ => S754_nan
  | _, S754_zero _ => S754_nan
  | _, S754_infinity _ => x
  | S754_zero _, S754_finite _ _ _ => x
  | S754_finite sx mx ex, S754_finite _ my ey =>
      let ez := Z.min ex ey in
      let r := Z.shiftl (Zpos mx) (ex - ez) mod Z.shiftl (Zpos my) (ey - ez) in
      match r with
      | Zpos p => S754_finite sx p ez
      | _ => S754_zero sx
      end
  end.

(** The conversion [int(x)]: the fraction is discarded (truncation
    towards zero).  When the value does not fit an [int], or [x] is NaN
    or an infinity, Go leaves the result to the implementation: it is
    [undef x]. *)
Definition to_int (undef : float64 -> Z) (x : float64) : Z :=
  match x with
  | S754_zero _ => 0
  | S754_finite s m e =>
      let n := cond_Zopp s (if 0 <=? e then Z.shiftl (Zpos m) e
                            else Z.shiftr (Zpos m) (- e)) in
      if GoInt.inRange n then n else GoInt.wrap (undef x)
  | _ => GoInt.wrap (undef x)
  end.

(** The constants of the source, converted to [float64] as Go converts an
    untyped constant: to the nearest value. *)
Definition c_0 : float64 := S754_zero false.
Definition c_2 : float64 := of_int 2.
Definition c_5 : float64 := of_int 5.
Definition c_0_2 : float64 := round_ratio false 2 10.
Definition c_0_25 : float64 := round_ratio false 25 100.

End Float64.

(** ** Strings as bytes *)

Definition byte_of (c : ascii) : Z := Z.of_N (N_of_ascii c).

Definition ascii_of (b : Z) : ascii := ascii_of_N (Z.to_N b).

Definition bytes (s : string) : list Z := map byte_of (list_ascii_of_string s).

Definition string_of_bytes (p : list Z) : string :=
  string_of_list_ascii (map ascii_of p).

(** [len(s)]: the number of bytes. *)
Definition len (s : string) : Z := Z.of_nat (String.length s).

(** ** Package [unicode/utf8] *)

Module Utf8.

Definition RuneError : Z := 65533.
Definition RuneSelf : Z := 128.

Definition between (lo hi b : Z) : bool := (lo <=? b) && (b <=? hi).

Definition cont (b : Z) : bool := between 128 191 b.

(** The entry of the decoder's table for a first byte at or above
    [RuneSelf]: the length of the sequence and the range its second byte
    must fall in; [None] for a byte that starts no sequence. *)
Definition first (b0 : Z) : option (nat * (Z * Z)) :=
  if between 194 223 b0 then Some (2%nat, (128, 191))
  else if b0 =? 224 then Some (3%nat, (160, 191))
  else if between 225 236 b0 then Some (3%nat, (128, 191))
  else if b0 =? 237 then Some (3%nat, (128, 159))
  else if between 238 239 b0 then Some (3%nat, (128, 191))
  else if b0 =? 240 then Some (4%nat, (144, 191))
  else if between 241 243 b0 then Some (4%nat, (128, 191))
  else if b0 =? 244 then Some (4%nat, (128, 143))
  else None.

(** [utf8.DecodeRuneInString]: the first rune of [p] and its width in
    bytes; [(RuneError, 0)] for the empty string and [(RuneError, 1)] for
    an encoding that is invalid or cut short. *)
Definition DecodeRune (p : list Z) : Z * nat :=
  match p with
  | [] => (RuneError, 0%nat)
  | b0 :: rest =>
      if b0 <? RuneSelf then (b0, 1%nat)
      else
        match first b0 with
        | None => (RuneError, 1%nat)
        | Some (sz, (lo, hi)) =>
            match sz, rest with
            | 2%nat, b1 :: _ =>
                if between lo hi b1
                then (Z.lor (Z.shiftl (Z.land b0 31) 6) (Z.land b1 63), 2%nat)
                else (RuneError, 1%nat)
            | 3%nat, b1 :: b2 :: _ =>
                if between lo hi b1 && cont b2
                then (Z.lor (Z.shiftl (Z.land b0 15) 12)
                        (Z.lor (Z.shiftl (Z.land b1 63) 6) (Z.land b2 63)),
                      3%nat)
                else (RuneError, 1%nat)
            | 4%nat, b1 :: b2 :: b3 :: _ =>
                if between lo hi b1 && cont b2 && cont b3
                then (Z.lor (Z.shiftl (Z.land b0 7) 18)
                        (Z.lor (Z.shiftl (Z.land b1 63) 12)
                           (Z.lor (Z.shiftl (Z.land b2 63) 6) (Z.land b3 63))),
                      4%nat)
                else (RuneError, 1%nat)
            | _, _ => (RuneError, 1%nat)
            end
        end
  end.

(** [utf8.RuneStart]: the byte is not a continuation byte. *)
Definition RuneStart (b : Z) : bool := negb (Z.land b 192 =? 128).

(** The rune decoded from the [k] last bytes, given first to last, when it
    fills them; [(RuneError, 1)] otherwise. *)
Definition decodeExactly (k : nat) (tail : list Z) : Z * nat :=
  let '(r, size) := DecodeRune tail in
  if Nat.eqb size k then (r, size) else (RuneError, 1%nat).

(** [utf8.DecodeLastRuneInString] on the bytes in reverse order ([q] is
    the string read from its end): the last rune and its width.  The
    start of the rune is searched among the three bytes before the last
    one. *)
Definition DecodeLastRune (q : list Z) : Z * nat :=
  match q with
  | [] => (RuneError, 0%nat)
  | b1 :: q1 =>
      if b1 <? RuneSelf then (b1, 1%nat)
      else
        match q1 with
        | [] => (RuneError, 1%nat)
        | b2 :: q2 =>
            if RuneStart b2 then decodeExactly 2 [b2; b1]
            else
              match q2 with
              | [] => (RuneError, 1%nat)
              | b3 :: q3 =>
                  if RuneStart b3 then decodeExactly 3 [b3; b2; b1]
                  else
                    match q3 with
                    | [] => (RuneError, 1%nat)
                    | b4 :: _ =>
                        if RuneStart b4 then decodeExactly 4 [b4; b3; b2; b1]
                        else (RuneError, 1%nat)
                    end
              end
        end
  end.

(** The runes a [for _, c := range s] loop visits, in order. *)
Fixpoint runesN (fuel : nat) (p : list Z) : list Z :=
  match fuel, p with
  | O, _ | _, [] => []
  | S fuel', _ :: _ =>
      let '(r, size) := DecodeRune p in
      r :: runesN fuel' (skipn size p)
  end.

Definition runes (s : string) : list Z :=
  let p := bytes s in runesN (List.length p) p.

End Utf8.

(** ** Package [unicode] *)

Module Unicode.

Definition MaxLatin1 : Z := 255.

(** The letters of Latin-1 (the classes Lu, Ll and Lo of the package's
    [properties] table). *)
Definition latin1Letter (r : Z) : bool :=
  Utf8.between 65 90 r || Utf8.between 97 122 r
  || (r =? 170) || (r =? 181) || (r =? 186)
  || Utf8.between 192 214 r || Utf8.between 216 246 r
  || Utf8.between 248 255 r.

(** [unicode.IsLetter]; [Letter] is the membership in the package's range
    table [Letter] for the code points above Latin-1. *)
Definition IsLetter (Letter : Z -> bool) (r : Z) : bool :=
  if r <=? MaxLatin1 then latin1Letter r else Letter r.

(** [unicode.IsDigit]; [Digit] is the membership in the range table
    [Digit] above Latin-1. *)
Definition IsDigit (Digit : Z -> bool) (r : Z) : bool :=
  if r <=? MaxLatin1 then Utf8.between 48 57 r else Digit r.

(** [unicode.IsSpace]: the property White_Space. *)
Definition IsSpace (r : Z) : bool :=
  if r <=? MaxLatin1
  then Utf8.between 9 13 r || (r =? 32) || (r =? 133) || (r =? 160)
  else (r =? 5760) || Utf8.between 8192 8202 r || Utf8.between 8232 8233 r
       || (r =? 8239) || (r =? 8287) || (r =? 12288).

End Unicode.

(** ** Package [strings] *)

Module Strings.

(** The bytes left once the leading runes that satisfy [f] are removed. *)
Fixpoint trimLeftN (f : Z -> bool) (fuel : nat) (p : list Z) : list Z :=
  match fuel, p with
  | O, _ | _, [] => p
  | S fuel', _ :: _ =>
      let '(r, size) := Utf8.DecodeRune p in
      if f r then trimLeftN f fuel' (skipn size p) else p
  end.

(** The same from the end, on the reversed bytes. *)
Fixpoint trimRightN (f : Z -> bool) (fuel : nat) (q : list Z) : list Z :=
  match fuel, q with
  | O, _ | _, [] => q
  | S fuel', _ :: _ =>
      let '(r, size) := Utf8.DecodeLastRune q in
      if f r then trimRightN f fuel' (skipn size q) else q
  end.

(** [strings.TrimSpace]: [s] without its leading and trailing white
    space, as Unicode defines it. *)
Definition TrimSpace (s : string) : string :=
  let p := bytes s in
  let p1 := trimLeftN Unicode.IsSpace (List.length p) p in
  let q := rev p1 in
  string_of_bytes (rev (trimRightN Unicode.IsSpace (List.length q) q)).

(** [strings.Split(s, sep)] for a separator of one byte: the pieces of
    [s] between the occurrences of [sep], one more than there are
    occurrences. *)
Fixpoint Split (s : string) (sep : ascii) : list string :=
  match s with
  | EmptyString => [EmptyString]
  | String c s' =>
      if Ascii.eqb c sep then EmptyString :: Split s' sep
      else
        match Split s' sep with
        | [] => [String c EmptyString]
        | piece :: pieces => String c piece :: pieces
        end
  end.

End Strings.

(** ** Errors *)

(** The two causes of a [*strconv.NumError]. *)
Inductive numErr : Type := ErrSyntax | ErrRange.

(** The error values of the program: [strconv]'s
    [&NumError{Func, Num, Err}] and the value of [fmt.Errorf] for a format
    without verbs. *)
Inductive error : Type :=
| NumError (Func Num : string) (Err : numErr)
| Errorf (msg : string).

(** ** Package [strconv] *)

Module Strconv.

Import Float64.

Definition isDigit (c : Z) : bool := Utf8.between 48 57 c.

(** [lower(c)]: [c | ('x' - 'X')]. *)
Definition lower (c : Z) : Z := Z.lor c 32.

Definition isHexLetter (c : Z) : bool := Utf8.between 97 102 (lower c).

(** *** [ParseFloat] *)

(** [commonPrefixLenIgnoreCase(s, prefix)], [prefix] in lower case. *)
Fixpoint commonPrefixLenIgnoreCase (s prefix : list Z) : nat :=
  match s, prefix with
  | c :: s', d :: prefix' =>
      let c := if Utf8.between 65 90 c then c + 32 else c in
      if c =? d then S (commonPrefixLenIgnoreCase s' prefix') else O
  | _, _ => O
  end.

(** The [infinity] case of [special]: the value of sign [sign] and the
    bytes read, 3 or 8. *)
Definition specialInf (sign : bool) (s : list Z) : option (float64 * nat) :=
  let n := commonPrefixLenIgnoreCase s (bytes "infinity") in
  let n := if Nat.ltb 3 n && Nat.ltb n 8 then 3%nat else n in
  if Nat.eqb n 3 || Nat.eqb n 8 then Some (S754_infinity sign, n) else None.

(** [special]: the strings [inf], [infinity] (with a sign or not) and
    [nan], in any case; the value and the number of bytes read. *)
Definition special (s : list Z) : option (float64 * nat) :=
  match s with
  | [] => None
  | c :: s' =>
      if c =? 43 then
        option_map (fun '(f, n) => (f, S n)) (specialInf false s')
      else if c =? 45 then
        option_map (fun '(f, n) => (f, S n)) (specialInf true s')
      else if (c =? 105) || (c =? 73) then specialInf false s
      else if (c =? 110) || (c =? 78) then
        if Nat.eqb (commonPrefixLenIgnoreCase s (bytes "nan")) 3
        then Some (S754_nan, 3%nat) else None
      else None
  end.

(** What [readFloat] has read of the digits: their value [mant] in the
    base, their number [nd] after the leading zeros, the position [dp] of
    the point. *)
Record digitsRead : Type := {
  mant : Z;
  nd : Z;
  dp : Z;
  sawdot : bool;
  sawdigits : bool
}.

(** The loop of [readFloat] over the digits, the point and the
    underscores; the bytes it leaves are returned.  [mant] keeps every
    digit (the source keeps 19 and a flag that one was cut off, and its
    conversion rounds the number as read). *)
Fixpoint readDigits (hex : bool) (p : list Z) (st : digitsRead)
  : digitsRead * list Z :=
  match p with
  | [] => (st, [])
  | c :: p' =>
      if c =? 95 then readDigits hex p' st
      else if c =? 46 then
        if sawdot st then (st, p)
        else readDigits hex p'
               {| mant := mant st; nd := nd st; dp := nd st;
                  sawdot := true; sawdigits := sawdigits st |}
      else if isDigit c then
        if (c =? 48) && (nd st =? 0) then
          readDigits hex p'
            {| mant := mant st; nd := nd st; dp := dp st - 1;
               sawdot := sawdot st; sawdigits := true |}
        else
          readDigits hex p'
            {| mant := mant st * (if hex then 16 else 10) + (c - 48);
               nd := nd st + 1; dp := dp st;
               sawdot := sawdot st; sawdigits := true |}
      else if hex && isHexLetter c then
        readDigits hex p'
          {| mant := mant st * 16 + (lower c - 97 + 10);
             nd := nd st + 1; dp := dp st;
             sawdot := sawdot st; sawdigits := true |}
      else (st, p)
  end.

(** The digits of the exponent: [e] grows while it is below 10000. *)
Fixpoint readExpDigits (p : list Z) (e : Z) : Z * list Z :=
  match p with
  | c :: p' =>
      if c =? 95 then readExpDigits p' e
      else if isDigit c then
        readExpDigits p' (if e <? 10000 then e * 10 + (c - 48) else e)
      else (e, p)
  | [] => (e, [])
  end.

(** The optional exponent of [readFloat]: the signed exponent and the
    bytes left; [None] when the exponent is malformed, or missing from a
    hexadecimal number. *)
Definition readExponent (hex : bool) (p : list Z) : option (Z * list Z) :=
  match p with
  | c :: p' =>
      if lower c =? (if hex then 112 else 101) then
        match p' with
        | [] => None
        | s :: p'' =>
            let '(esign, q) :=
              if s =? 43 then (1, p'')
              else if s =? 45 then (-1, p'')
              else (1, p') in
            match q with
            | d :: _ =>
                if isDigit d then
                  let '(e, rest) := readExpDigits q 0 in
                  Some (e * esign, rest)
                else None
            | [] => None
            end
        end
      else if hex then None else Some (0, p)
  | [] => if hex then None else Some (0, [])
  end.

(** [underscoreOK]: an underscore stands between two digits, or between
    the base prefix and a digit.  [saw] is the kind of the last byte:
    a digit ([true, false]), an underscore ([false, true]) or another. *)
Fixpoint underscoreScan (hex : bool) (p : list Z) (sawDigit sawUnder : bool)
  : bool :=
  match p with
  | [] => negb sawUnder
  | c :: p' =>
      if isDigit c || (hex && isHexLetter c) then underscoreScan hex p' true false
      else if c =? 95 then
        if sawDigit then underscoreScan hex p' false true else false
      else if sawUnder then false
      else underscoreScan hex p' false false
  end.

Definition underscoreOK (s : list Z) : bool :=
  let s := match s with
           | c :: s' => if (c =? 45) || (c =? 43) then s' else s
           | [] => s
           end in
  match s with
  | c0 :: c1 :: s' =>
      if (c0 =? 48)
         && ((lower c1 =? 98) || (lower c1 =? 111) || (lower c1 =? 120))
      then underscoreScan (lower c1 =? 120) s' true false
      else underscoreScan false s false false
  | _ => underscoreScan false s false false
  end.

(** The number [readFloat] reads from the whole of [s]: its sign,
    whether it is hexadecimal, the value of its digits and the exponent of
    the base (10, or 2 for a hexadecimal number) that scales them; [None]
    when [s] is not a number from its first byte to its last. *)
Definition readFloat (s : list Z) : option (bool * bool * Z * Z) :=
  let '(neg, p) :=
    match s with
    | c :: s' =>
        if c =? 43 then (false, s')
        else if c =? 45 then (true, s')
        else (false, s)
    | [] => (false, s)
    end in
  match s with
  | [] => None
  | _ :: _ =>
      let '(hex, p) :=
        match p with
        | c0 :: c1 :: ((_ :: _) as p') =>
            if (c0 =? 48) && (lower c1 =? 120) then (true, p') else (false, p)
        | _ => (false, p)
        end in
      let '(st, p) :=
        readDigits hex p
          {| mant := 0; nd := 0; dp := 0; sawdot := false; sawdigits := false |} in
      if negb (sawdigits st) then None
      else
        let dp := if sawdot st then dp st else nd st in
        let '(dp, ndMant) := if hex then (dp * 4, nd st * 4) else (dp, nd st) in
        match readExponent hex p with
        | None => None
        | Some (e, rest) =>
            match rest with
            | _ :: _ => None
            | [] =>
                if underscoreOK s
                then Some (neg, hex, mant st, dp + e - ndMant)
                else None
            end
        end
  end.

(** The nearest [float64] to [(-1)^neg * m * base^exp]. *)
Definition nearest (neg hex : bool) (m exp : Z) : float64 :=
  match m with
  | Zpos pm =>
      if hex then binary_round prec emax neg pm exp
      else
        match exp with
        | Zneg pe => round_ratio neg pm (10 ^ pe)%positive
        | _ => binary_round prec emax neg (pm * Z.to_pos (10 ^ exp))%positive 0
        end
  | _ => S754_zero neg
  end.

(** [strconv.ParseFloat(s, 64)]: the nearest [float64] to the decimal or
    hexadecimal number [s], or an infinity or NaN by name; the error is
    [ErrSyntax] when [s] is no number and [ErrRange], with an infinity,
    when it is too large. *)
Definition ParseFloat (s : string) : float64 * option error :=
  let syntax := (c_0, Some (NumError "ParseFloat" s ErrSyntax)) in
  let p := bytes s in
  match special p with
  | Some (f, n) => if Nat.eqb n (List.length p) then (f, None) else syntax
  | None =>
      match readFloat p with
      | None => syntax
      | Some (neg, hex, m, exp) =>
          match nearest neg hex m exp with
          | S754_infinity sg =>
              (S754_infinity sg, Some (NumError "ParseFloat" s ErrRange))
          | f => (f, None)
          end
      end
  end.

(** *** [Atoi] *)

(** The digits of [ParseUint] in base 10: their value, [ErrRange] once it
    passes [2^64 - 1], [ErrSyntax] at a byte that is no digit. *)
Fixpoint parseDigits (p : list Z) (n : Z) : Z + numErr :=
  match p with
  | [] => inl n
  | c :: p' =>
      if isDigit c then
        let n1 := n * 10 + (c - 48) in
        if 2 ^ 64 - 1 <? n1 then inr ErrRange else parseDigits p' n1
      else inr ErrSyntax
  end.

(** [strconv.Atoi]: a sign, or none, and decimal digits, at least one;
    the value must fit an [int]. *)
Definition Atoi (s : string) : Z * option error :=
  let syntax := (0, Some (NumError "Atoi" s ErrSyntax)) in
  let p := bytes s in
  let '(neg, digits) :=
    match p with
    | c :: p' =>
        if c =? 43 then (false, p')
        else if c =? 45 then (true, p')
        else (false, p)
    | [] => (false, p)
    end in
  match digits with
  | [] => syntax
  | _ :: _ =>
      let un :=
        match parseDigits digits 0 with
        | inl n => Some n
        | inr ErrRange => Some (2 ^ 64 - 1)
        | inr ErrSyntax => None
        end in
      match un with
      | None => syntax
      | Some un =>
          if negb neg && (2 ^ 63 <=? un)
          then (2 ^ 63 - 1, Some (NumError "Atoi" s ErrRange))
          else if neg && (2 ^ 63 <? un)
          then (- 2 ^ 63, Some (NumError "Atoi" s ErrRange))
          else (if neg then - un else un, None)
      end
  end.

End Strconv.

(** ** The receipt model *)

(** [Item]: one line of a receipt. *)
Record Item : Type := {
  ShortDescription : string;
  Price : string
}.

(** [PostReceiptJSON]: the payload of the POST request; every field is a
    string as the request gave it. *)
Record PostReceiptJSON : Type := {
  Retailer : string;
  PurchaseDate : string;
  PurchaseTime : string;
  Total : string;
  Items : list Item
}.

(** [uuid.UUID], an array of 16 bytes. *)
Definition UUID : Type := list Z.

(** [StorageReceipt]: a receipt in storage.  The payload is an embedded
    field, so its fields are read from the stored receipt directly. *)
Record StorageReceipt : Type := {
  Payload :> PostReceiptJSON;
  Id : UUID
}.

(** ** Outcomes *)

(** A value printed by [fmt.Println] or [fmt.Printf]. *)
Inductive printed : Type :=
| PStr (s : string)
| PErr (e : error).

(** A call that writes to the standard output. *)
Inductive stdoutCall : Type :=
| Println (args : list printed)
| Printf (format : string) (args : list printed).

(** A run-time panic: an index outside a slice. *)
Inductive panicValue : Type :=
| IndexOutOfRange (index length : Z).

(** How a call ends: it returns a value or panics, having written [out] to
    the standard output. *)
Inductive outcome (A : Type) : Type :=
| Return (out : list stdoutCall) (a : A)
| Panic (out : list stdoutCall) (p : panicValue).

Arguments Return {A} out a.
Arguments Panic {A} out p.

(** [s[i]] on a slice: the element, or the panic of the run time. *)
Definition index {A B : Type} (s : list A) (i : nat)
  (k : A -> outcome B) : outcome B :=
  match nth_error s i with
  | Some a => k a
  | None => Panic [] (IndexOutOfRange (Z.of_nat i) (Z.of_nat (List.length s)))
  end.

(** ** The points engine *)

Section PointsEngine.

(** The range tables [unicode.Letter] and [unicode.Digit] above Latin-1,
    and the result of converting to [int] a [float64] that no [int]
    holds, which Go leaves to the implementation. *)
Variables (Letter Digit : Z -> bool) (intUndef : Float64.float64 -> Z).

(** Rule 1, the loop over the runes of the retailer's name. *)
Fixpoint countAlnum (rs : list Z) (count : Z) : Z :=
  match rs with
  | [] => count
  | c :: rs' =>
      countAlnum rs'
        (if Unicode.IsLetter Letter c || Unicode.IsDigit Digit c
         then GoInt.add count 1 else count)
  end.

(** Rule 7 and the final return. *)
Definition findPoints_rule7 (re : StorageReceipt) (total : Z)
  : outcome (Z * option error) :=
  let timeSplit := Strings.Split (PurchaseTime re) ":" in
  index timeSplit 0 (fun t0 =>
  match Strconv.Atoi t0 with
  | (_, Some err) => Return [] (0, Some err)
  | (hrs, None) =>
      index timeSplit 1 (fun t1 =>
      match Strconv.Atoi t1 with
      | (_, Some err) => Return [] (0, Some err)
      | (mins, None) =>
          if (hrs =? 14) && (mins =? 0) then
            Return [Println [PStr "do nothing, because it's exactly 2pm"]]
              (total, None)
          else if (14 <=? hrs) && (hrs <? 16) then
            Return [] (GoInt.add total 10, None)
          else Return [] (total, None)
      end)
  end).

(** Rule 6, then rule 7. *)
Definition findPoints_rule6 (re : StorageReceipt) (total : Z)
  : outcome (Z * option error) :=
  let splitStrs := Strings.Split (PurchaseDate re) "-" in
  if negb (Nat.eqb (List.length splitStrs) 3) then
    Return [] (0, Some (Errorf "invalid date. Must follow the YYYY-MM-DD scheme"))
  else
    index splitStrs 2 (fun date =>
    match Strconv.Atoi date with
    | (_, Some err) => Return [] (0, Some err)
    | (dateNum, None) =>
        let total :=
          if GoInt.rem dateNum 2 =? 1 then GoInt.add total 6 else total in
        findPoints_rule7 re total
    end).

(** Rule 5, the loop over the items, then rules 6 and 7. *)
Fixpoint findPoints_rule5 (re : StorageReceipt) (items : list Item)
  (total : Z) : outcome (Z * option error) :=
  match items with
  | [] => findPoints_rule6 re total
  | item :: items' =>
      let trimmedDesc := Strings.TrimSpace (ShortDescription item) in
      if GoInt.rem (len trimmedDesc) 3 =? 0 then
        match Strconv.ParseFloat (Price item) with
        | (_, Some err) => Return [] (0, Some err)
        | (itemPrice, None) =>
            let earnedPts := Float64.Ceil (Float64.mul itemPrice Float64.c_0_2) in
            findPoints_rule5 re items'
              (GoInt.add total (Float64.to_int intUndef earnedPts))
        end
      else findPoints_rule5 re items' total
  end.

(** Rule 4, then rules 5 to 7. *)
Definition findPoints_rule4 (re : StorageReceipt) (total : Z)
  : outcome (Z * option error) :=
  let numItems := Z.of_nat (List.length (Items re)) in
  let m := Float64.Floor
             (Float64.div (Float64.of_int numItems) Float64.c_2) in
  let total :=
    GoInt.add total (Float64.to_int intUndef (Float64.mul m Float64.c_5)) in
  findPoints_rule5 re (Items re) total.

(** [findPoints]: how many points a receipt is worth, or the error that
    stopped the count.  Rule 1, the parsing of the total and rules 2 and
    3 are here; the rest of the body is [findPoints_rule4] and the
    definitions it leads to, one for each of the rules that follow. *)
Definition findPoints (re : StorageReceipt) : outcome (Z * option error) :=
  let total := 0 in
  (* #1 *)
  let count := countAlnum (Utf8.runes (Retailer re)) 0 in
  let total := GoInt.add total count in
  match Strconv.ParseFloat (Total re) with
  | (_, Some err) => Return [] (0, Some err)
  | (totalPrice, None) =>
      (* #2 *)
      let total :=
        if Float64.eqb totalPrice (Float64.Floor totalPrice)
        then GoInt.add total 50 else total in
      (* #3 *)
      let total :=
        if Float64.eqb (Float64.Mod totalPrice Float64.c_0_25) Float64.c_0
        then GoInt.add total 25 else total in
      findPoints_rule4 re total
  end.

End PointsEngine.

(** ** The receipt store and the handlers *)

(** [ReceiptHandler]: the receipts in memory.  The mutex is not part of
    the state: a handler holds it from its first access to [Receipts] to
    its return, so the handlers below run one at a time. *)
Record ReceiptHandler : Type := {
  Receipts : list StorageReceipt
}.

Definition NewReceiptHandler : ReceiptHandler := {| Receipts := [] |}.

(** A call on the [http.ResponseWriter]. *)
Inductive writerCall : Type :=
| WriteHeader (statusCode : Z)
| Write (body : string).

Definition StatusOK : Z := 200.
Definition StatusBadRequest : Z := 400.
Definition StatusNotFound : Z := 404.

(** The status a client receives: the one of the first [WriteHeader], or
    200 when [Write] comes first. *)
Definition statusOf (calls : list writerCall) : option Z :=
  match calls with
  | WriteHeader code :: _ => Some code
  | Write _ :: _ => Some StatusOK
  | [] => None
  end.

(** The body a client receives. *)
Fixpoint bodyOf (calls : list writerCall) : string :=
  match calls with
  | [] => EmptyString
  | WriteHeader _ :: calls' => bodyOf calls'
  | Write b :: calls' => (b ++ bodyOf calls')%string
  end.

Definition quote : string := String (ascii_of 34) EmptyString.
Definition newline : string := String (ascii_of 10) EmptyString.

(** Two lower-case hexadecimal digits for a byte, as [hex.Encode]. *)
Definition hexDigit (d : Z) : ascii :=
  ascii_of (if d <? 10 then 48 + d else 97 + (d - 10)).

Definition hexEncode (p : list Z) : string :=
  string_of_list_ascii
    (flat_map (fun b => [hexDigit (Z.shiftr b 4); hexDigit (Z.land b 15)]) p).

(** [uuid.UUID.String]: the form xxxxxxxx-xxxx-xxxx-xxxx-xxxxxxxxxxxx. *)
Definition UUID_String (u : UUID) : string :=
  (hexEncode (firstn 4 u) ++ "-" ++ hexEncode (firstn 2 (skipn 4 u)) ++ "-"
   ++ hexEncode (firstn 2 (skipn 6 u)) ++ "-"
   ++ hexEncode (firstn 2 (skipn 8 u)) ++ "-" ++ hexEncode (skipn 10 u))%string.

(** The decimal form of an [int]. *)
Definition itoa (n : Z) : string :=
  DecimalString.NilZero.string_of_int (Z.to_int n).

(** [json.Marshal] of the response [struct { Id string `json:"id"` }], for
    an id made of hexadecimal digits and hyphens, which need no escape. *)
Definition marshalId (id : string) : string * option error :=
  (("{" ++ quote ++ "id" ++ quote ++ ":" ++ quote ++ id ++ quote ++ "}")%string,
   None).

(** [json.Marshal] of the response [struct { Points int `json:"points"` }]. *)
Definition marshalPoints (points : Z) : string * option error :=
  (("{" ++ quote ++ "points" ++ quote ++ ":" ++ itoa points ++ "}")%string, None).

(** What the environment gives a POST request: the result of decoding its
    body, the result of [uuid.NewV7] and the result of the write. *)
Record postEnv : Type := {
  decoded : PostReceiptJSON * option error;
  newV7 : UUID * option error;
  postWritten : option error
}.

(** [handleProcessReceipts]: the handler's state after the request, with
    the calls made on the response writer. *)
Definition handleProcessReceipts (rh : ReceiptHandler) (env : postEnv)
  : outcome (ReceiptHandler * list writerCall) :=
  match decoded env with
  | (_, Some err) =>
      let out := [Printf ("decoding post receipt: %+v" ++ newline) [PErr err]] in
      let w := [WriteHeader StatusBadRequest; Write "invalid receipt"] in
      match postWritten env with
      | Some err => Return (out ++ [Println [PStr "writing to response: "; PErr err]])%list (rh, w)
      | None => Return out (rh, w)
      end
  | (postReceipt, None) =>
      match newV7 env with
      | (_, Some err) =>
          Return [Printf ("creating new UUID: %+v" ++ newline) [PErr err]] (rh, [])
      | (newUUID, None) =>
          let storedData := {| Id := newUUID; Payload := postReceipt |} in
          let rh := {| Receipts := (Receipts rh ++ [storedData])%list |} in
          match marshalId (UUID_String (Id storedData)) with
          | (_, Some err) =>
              Return [Printf ("marshaling json: %+v" ++ newline) [PErr err]] (rh, [])
          | (b, None) =>
              match postWritten env with
              | Some err =>
                  Return [Printf ("writing to response: %+v" ++ newline) [PErr err]]
                    (rh, [Write b])
              | None => Return [] (rh, [Write b])
              end
          end
      end
  end.

Section Lookup.

Variables (Letter Digit : Z -> bool) (intUndef : Float64.float64 -> Z).

(** The loop of [handleGetReceiptPoints] over the receipts, and what
    follows it when no id matches; [written] is the result of the write. *)
Fixpoint lookupPoints (receipts : list StorageReceipt) (idFromURL : string)
  (written : option error) : outcome (list writerCall) :=
  match receipts with
  | receipt :: receipts' =>
      if String.eqb idFromURL (UUID_String (Id receipt)) then
        match findPoints Letter Digit intUndef receipt with
        | Panic out p => Panic out p
        | Return out (points, err) =>
            let out :=
              match err with
              | Some err =>
                  (out ++ [Println [PStr "error with calculating points: "; PErr err]])%list
              | None => out
              end in
            match marshalPoints points with
            | (_, Some err) =>
                Return (out ++ [Printf ("marshaling json: %+v" ++ newline) [PErr err]])%list []
            | (b, None) =>
                match written with
                | Some err =>
                    Return
                      (out ++ [Printf ("writing to response: %+v" ++ newline) [PErr err]])%list
                      [Write b]
                | None => Return out [Write b]
                end
            end
        end
      else lookupPoints receipts' idFromURL written
  | [] =>
      let w := [WriteHeader StatusNotFound; Write "Id not found"] in
      match written with
      | Some err =>
          Return [Printf ("writing to response: %+v" ++ newline) [PErr err]] w
      | None => Return [] w
      end
  end.

(** [handleGetReceiptPoints]: the calls made on the response writer; the
    handler's state is left as it was. *)
Definition handleGetReceiptPoints (rh : ReceiptHandler) (idFromURL : string)
  (written : option error) : outcome (ReceiptHandler * list writerCall) :=
  match lookupPoints (Receipts rh) idFromURL written with
  | Return out w => Return out (rh, w)
  | Panic out p => Panic out p
  end.

(** A request to the server. *)
Inductive request : Type :=
| PostReceipt (env : postEnv)
| GetPoints (idFromURL : string) (written : option error).

(** The store once a request is served; a handler that panics leaves the
    store as it found it. *)
Definition serve (rh : ReceiptHandler) (rq : request) : ReceiptHandler :=
  match rq with
  | PostReceipt env =>
      match handleProcessReceipts rh env with
      | Return _ (rh', _) => rh'
      | Panic _ _ => rh
      end
  | GetPoints idFromURL written =>
      match handleGetReceiptPoints rh idFromURL written with
      | Return _ (rh', _) => rh'
      | Panic _ _ => rh
      end
  end.

(** The id a request adds to the store, if it adds one. *)
Definition generated (rq : request) : option UUID :=
  match rq with
  | PostReceipt env =>
      match decoded env, newV7 env with
      | (_, None), (u, None) => Some u
      | _, _ => None
      end
  | GetPoints _ _ => None
  end.

(** Identifier generation is fresh: the id a request generates is the id
    of no stored receipt. *)
Definition fresh (rh : ReceiptHandler) (rq : request) : Prop :=
  match generated rq with
  | Some u => ~ In u (map Id (Receipts rh))
  | None => True
  end.

(** The states of the store a server can be in: the empty store of
    [NewReceiptHandler], and the store after one more request whose
    identifier, if any, is fresh. *)
Inductive reachable : ReceiptHandler -> Prop :=
| reachable_new : reachable NewReceiptHandler
| reachable_serve rh rq :
    reachable rh -> fresh rh rq -> reachable (serve rh rq).

End Lookup.

(** The receipts a request adds to the store. *)
Definition stored (rq : request) : list StorageReceipt :=
  match rq with
  | PostReceipt env =>
      match generated rq with
      | Some u => [ {| Payload := fst (decoded env); Id := u |} ]
      | None => []
      end
  | GetPoints _ _ => []
  end.

(** The receipt a lookup by id finds: the first whose id has the string
    form asked for. *)
Definition FindByID (rh : ReceiptHandler) (idFromURL : string)
  : option StorageReceipt :=
  find (fun receipt => String.eqb idFromURL (UUID_String (Id receipt)))
    (Receipts rh).

(** The guard of rule 5: the trimmed length of the item's description is a
    multiple of 3. *)
Definition counted (item : Item) : Prop :=
  GoInt.rem (len (Strings.TrimSpace (ShortDescription item))) 3 = 0.

(** [n] is the least integer not below [(-1)^s * m * 2^e]. *)
Definition is_ceiling (s : bool) (m : positive) (e n : Z) : Prop :=
  if 0 <=? e then n = cond_Zopp s (Zpos m * 2 ^ e)
  else (n - 1) * 2 ^ (- e) < cond_Zopp s (Zpos m) <= n * 2 ^ (- e).

(** The afternoon window in the words of the specification: the hour is at
    least 14 and below 16, and the time is not 14:00. *)
Definition inAfternoonWindow (hrs mins : Z) : bool :=
  (14 <=? hrs) && (hrs <? 16) && negb ((hrs =? 14) && (mins =? 0)).

(** ** Receipts to run the model on *)

Definition withPurchaseTime (re : StorageReceipt) (t : string) : StorageReceipt :=
  {| Payload := {| Retailer := Retailer re; PurchaseDate := PurchaseDate re;
                   PurchaseTime := t; Total := Total re; Items := Items re |};
     Id := Id re |}.

Definition withTotal (re : StorageReceipt) (t : string) : StorageReceipt :=
  {| Payload := {| Retailer := Retailer re; PurchaseDate := PurchaseDate re;
                   PurchaseTime := PurchaseTime re; Total := t; Items := Items re |};
     Id := Id re |}.

(** Up to rule 7 the count does not read the time: either it reaches
    rule 7 with a total that is the same for every time, or it ends
    before, the same way for every time and with no score. *)
Definition time_blind (f : StorageReceipt -> outcome (Z * option error))
  (re : StorageReceipt) : Prop :=
  (exists total, forall t,
      f (withPurchaseTime re t) = findPoints_rule7 (withPurchaseTime re t) total)
  \/ (exists r, (forall t, f (withPurchaseTime re t) = r)
                /\ forall out s, r <> Return out (s, None)).

(** The two receipts of [TestPoint]. *)
Definition testReceipt1 (id : UUID) : StorageReceipt :=
  {| Id := id;
     Payload :=
       {| Retailer := "Target";
          PurchaseDate := "2022-01-01";
          PurchaseTime := "13:01";
          Items :=
            [ {| ShortDescription := "Mountain Dew 12PK"; Price := "6.49" |};
              {| ShortDescription := "Emils Cheese Pizza"; Price := "12.25" |};
              {| ShortDescription := "Knorr Creamy Chicken"; Price := "1.26" |};
              {| ShortDescription := "Doritos Nacho Cheese"; Price := "3.35" |};
              {| ShortDescription := "   Klarbrunn 12-PK 12 FL OZ  ";
                 Price := "12.00" |} ];
          Total := "35.35" |} |}.

Definition testReceipt2 (id : UUID) : StorageReceipt :=
  {| Id := id;
     Payload :=
       {| Retailer := "M&M Corner Market";
          PurchaseDate := "2022-03-20";
          PurchaseTime := "14:33";
          Items :=
            [ {| ShortDescription := "Gatorade"; Price := "2.25" |};
              {| ShortDescription := "Gatorade"; Price := "2.25" |};
              {| ShortDescription := "Gatorade"; Price := "2.25" |};
              {| ShortDescription := "Gatorade"; Price := "2.25" |} ];
          Total := "9.00" |} |}.

(** The parameters of the engine for a run on receipts whose retailer has
    no rune above Latin-1 and whose prices are small: tables without
    entries, and the result the amd64 conversion gives out of range. *)
Definition noEntries : Z -> bool := fun _ => false.
Definition integerIndefinite : Float64.float64 -> Z := fun _ => - 2 ^ 63.

(** An id of 16 bytes. *)
Definition sampleId (last : Z) : UUID :=
  [1; 146; 224; 71; 90; 17; 112; 0; 128; 0; 0; 0; 0; 0; 0; last].

Definition run : StorageReceipt -> outcome (Z * option error) :=
  findPoints noEntries noEntries integerIndefinite.

(** A receipt with one item, whose description has two letters and whose
    price is no number. *)
Definition uncountedBadPrice (id : UUID) : StorageReceipt :=
  {| Id := id;
     Payload :=
       {| Retailer := "Target";
          PurchaseDate := "2022-01-01";
          PurchaseTime := "13:01";
          Items := [ {| ShortDescription := "ab"; Price := "x" |} ];
          Total := "1.10" |} |}.

(** The same with a description of three letters. *)
Definition countedBadPrice (id : UUID) : StorageReceipt :=
  {| Id := id;
     Payload :=
       {| Retailer := "Target";
          PurchaseDate := "2022-01-01";
          PurchaseTime := "13:01";
          Items := [ {| ShortDescription := "abc"; Price := "x" |} ];
          Total := "1.10" |} |}.

(** An item whose description is white space only. *)
Definition blankItem : Item := {| ShortDescription := "   "; Price := "5.00" |}.

(** A store of two receipts; the total of the second is no number. *)
Definition sampleStore : ReceiptHandler :=
  {| Receipts := [ testReceipt1 (sampleId 1);
                   withTotal (testReceipt2 (sampleId 2)) "abc" ] |}.

(** A submission that is decoded and gets the id [sampleId 1]. *)
Definition samplePost : request :=
  PostReceipt {| decoded := (Payload (testReceipt1 (sampleId 1)), None);
                 newV7 := (sampleId 1, None);
                 postWritten := None |}.

(** ** What a receipt must be for a score *)

(** The number of bytes of [s] equal to [c]. *)
Fixpoint countByte (c : ascii) (s : string) : nat :=
  match s with
  | EmptyString => O
  | String c' s' => if Ascii.eqb c' c then S (countByte c s') else countByte c s'
  end.

(** The ASCII letters and digits. *)
Definition isAsciiAlnum (b : Z) : bool :=
  Utf8.between 48 57 b || Utf8.between 65 90 b || Utf8.between 97 122 b.

(** The points of rule 4 for [n] items, as an integer: 5 for every two. *)
Definition pairPoints (n : nat) : Z := 5 * (Z.of_nat n / 2).

(** The value of a hexadecimal digit in lower case. *)
Definition hexValue (c : ascii) : Z :=
  let n := byte_of c in if n <? 58 then n - 48 else n - 87.

(** An id is an array of 16 bytes. *)
Definition wfUUID (u : UUID) : Prop :=
  List.length u = 16%nat /\ Forall (fun b => 0 <= b < 256) u.

(** A submission that is decoded to [p] and gets the id [u]. *)
Definition submission (p : PostReceiptJSON) (u : UUID) (written : option error)
  : request :=
  PostReceipt {| decoded := (p, None); newV7 := (u, None);
                 postWritten := written |}.

(** The total is a number for [strconv.ParseFloat]. *)
Definition totalOK (re : StorageReceipt) : Prop :=
  snd (Strconv.ParseFloat (Total re)) = None.

(** The price of every item that passes the guard of rule 5 is a number. *)
Definition itemsOK (items : list Item) : Prop :=
  forall item, In item items -> counted item ->
    snd (Strconv.ParseFloat (Price item)) = None.

(** The date has three parts and the third is an integer. *)
Definition dateOK (re : StorageReceipt) : Prop :=
  exists y m d,
    Strings.Split (PurchaseDate re) "-" = [y; m; d]
    /\ snd (Strconv.Atoi d) = None.

(** The time has two parts or more and the first two are integers. *)
Definition timeOK (re : StorageReceipt) : Prop :=
  exists hh mm rest,
    Strings.Split (PurchaseTime re) ":" = hh :: mm :: rest
    /\ snd (Strconv.Atoi hh) = None
    /\ snd (Strconv.Atoi mm) = None.

(** Where an error of [findPoints] comes from: it is the error that
    [strconv.ParseFloat] returns for the total or for the price of an item
    that passes the guard of rule 5, the error of a date that has not three
    parts, or the error that [strconv.Atoi] returns for the day or for one
    of the first two parts of the time. *)
Definition errorSource (re : StorageReceipt) (err : error) : Prop :=
  (exists f, Strconv.ParseFloat (Total re) = (f, Some err))
  \/ (exists item f,
        In item (Items re) /\ counted item
        /\ Strconv.ParseFloat (Price item) = (f, Some err))
  \/ (err = Errorf "invalid date. Must follow the YYYY-MM-DD scheme"
      /\ countByte "-" (PurchaseDate re) <> 2%nat)
  \/ (exists day n,
        nth_error (Strings.Split (PurchaseDate re) "-") 2 = Some day
        /\ Strconv.Atoi day = (n, Some err))
  \/ (exists t n,
        (nth_error (Strings.Split (PurchaseTime re) ":") 0 = Some t
         \/ nth_error (Strings.Split (PurchaseTime re) ":") 1 = Some t)
        /\ Strconv.Atoi t = (n, Some err)).

(** The first receipt of the test with slashes in its date. *)
Definition slashDate (id : UUID) : StorageReceipt :=
  {| Id := id;
     Payload :=
       {| Retailer := "Target";
          PurchaseDate := "2022/01/01";
          PurchaseTime := "13:01";
          Items := Items (testReceipt1 id);
          Total := "35.35" |} |}.

(** A store whose only receipt has the time [1400]. *)
Definition panicStore : ReceiptHandler :=
  {| Receipts := [ withPurchaseTime (testReceipt2 (sampleId 2)) "1400" ] |}.

(** ** The score as a sum of the rules *)

Definition withItems (re : StorageReceipt) (items : list Item) : StorageReceipt :=
  {| Payload := {| Retailer := Retailer re; PurchaseDate := PurchaseDate re;
                   PurchaseTime := PurchaseTime re; Total := Total re;
                   Items := items |};
     Id := Id re |}.

(** The total is read as a number, not as one of the names [inf],
    [infinity] and [nan] that [strconv.ParseFloat] also accepts. *)
Definition isNumber (s : string) : Prop := Strconv.special (bytes s) = None.

(** Two items with the same description, and the same price if they pass
    the guard of rule 5. *)
Definition sameWherePriced (a b : Item) : Prop :=
  ShortDescription a = ShortDescription b /\ (counted a -> Price a = Price b).

(** The points of rule 2 for a total parsed to [p]. *)
Definition roundDollarPts (p : Float64.float64) : Z :=
  if Float64.eqb p (Float64.Floor p) then 50 else 0.

(** The points of rule 3 for a total parsed to [p]. *)
Definition quarterPts (p : Float64.float64) : Z :=
  if Float64.eqb (Float64.Mod p Float64.c_0_25) Float64.c_0 then 25 else 0.

(** The points of rule 6: 6 when the remainder of the day by 2 is 1. *)
Definition dayPts (re : StorageReceipt) : Z :=
  match Strings.Split (PurchaseDate re) "-" with
  | [_; _; d] => if GoInt.rem (fst (Strconv.Atoi d)) 2 =? 1 then 6 else 0
  | _ => 0
  end.

(** The points of rule 7: 10 in the afternoon window. *)
Definition timePts (re : StorageReceipt) : Z :=
  match Strings.Split (PurchaseTime re) ":" with
  | hh :: mm :: _ =>
      if inAfternoonWindow (fst (Strconv.Atoi hh)) (fst (Strconv.Atoi mm))
      then 10 else 0
  | _ => 0
  end.

(** What rule 7 prints: one line at 14:00. *)
Definition timePrint (re : StorageReceipt) : list stdoutCall :=
  match Strings.Split (PurchaseTime re) ":" with
  | hh :: mm :: _ =>
      if (fst (Strconv.Atoi hh) =? 14) && (fst (Strconv.Atoi mm) =? 0)
      then [Println [PStr "do nothing, because it's exactly 2pm"]] else []
  | _ => []
  end.

Section SumOfRules.

Variables (Letter Digit : Z -> bool) (intUndef : Float64.float64 -> Z).

(** The points of rule 4 for [n] items, through [float64] as the source
    computes them. *)
Definition pairPts (n : nat) : Z :=
  Float64.to_int intUndef
    (Float64.mul
       (Float64.Floor (Float64.div (Float64.of_int (Z.of_nat n)) Float64.c_2))
       Float64.c_5).

(** The points of rule 5 for one item: [int(Ceil(price * 0.2))] when it
    passes the guard, nothing otherwise. *)
Definition itemPts (item : Item) : Z :=
  if GoInt.rem (len (Strings.TrimSpace (ShortDescription item))) 3 =? 0
  then Float64.to_int intUndef
         (Float64.Ceil
            (Float64.mul (fst (Strconv.ParseFloat (Price item))) Float64.c_0_2))
  else 0.

Fixpoint itemsPts (items : list Item) : Z :=
  match items with
  | [] => 0
  | item :: items' => itemPts item + itemsPts items'
  end.

(** The points of the rules other than 2 and 3. *)
Definition restOfRules (re : StorageReceipt) : Z :=
  countAlnum Letter Digit (Utf8.runes (Retailer re)) 0
  + pairPts (List.length (Items re))
  + itemsPts (Items re) + dayPts re + timePts re.

End SumOfRules.

(** An item whose description is white space only and whose price is
    10^20. *)
Definition blankHugeItem : Item :=
  {| ShortDescription := "   "; Price := "100000000000000000000.00" |}.

(** An item that does not pass the guard of rule 5. *)
Definition uncountedItem : Item := {| ShortDescription := "ab"; Price := "5.00" |}.

(** A receipt of four items: the first passes the guard of rule 5 and
    its price is a number, the second does not pass it, the third and the
    fourth pass it and their prices are no numbers. *)
Definition laterBadPrice (id : UUID) : StorageReceipt :=
  {| Id := id;
     Payload :=
       {| Retailer := "Target";
          PurchaseDate := "2022-01-01";
          PurchaseTime := "13:01";
          Items := [ {| ShortDescription := "abc"; Price := "3.00" |};
                     {| ShortDescription := "ab"; Price := "y" |};
                     {| ShortDescription := "   "; Price := "x" |};
                     {| ShortDescription := "abcdef"; Price := "z" |} ];
          Total := "1.10" |} |}.

(** * Properties *)

(** ** Arithmetic of [int] *)

Lemma wrap_inRange (z : Z) : GoInt.inRange z = true -> GoInt.wrap z = z.
Proof.
  unfold GoInt.inRange, GoInt.wrap, GoInt.minInt, GoInt.maxInt.
  intros H. apply andb_prop in H. destruct H as [Hlo Hhi].
  apply Z.leb_le in Hlo. apply Z.leb_le in Hhi.
  rewrite Z.mod_small; lia.
Qed.

Lemma wrap_wrap_add (a b : Z) : GoInt.wrap (GoInt.wrap a + b) = GoInt.wrap (a + b).
Proof.
  unfold GoInt.wrap. f_equal.
  replace ((a + 2 ^ 63) mod 2 ^ 64 - 2 ^ 63 + b + 2 ^ 63)
    with ((a + 2 ^ 63) mod 2 ^ 64 + b) by ring.
  rewrite Zplus_mod_idemp_l. f_equal. ring.
Qed.

Lemma add_add (a b c : Z) :
  GoInt.add (GoInt.add a b) c = GoInt.wrap (a + (b + c)).
Proof.
  unfold GoInt.add. rewrite wrap_wrap_add. f_equal. ring.
Qed.

(** ** The shape of the errors *)

Ltac split_match H :=
  match type of H with
  | context [match ?x with _ => _ end] => destruct x eqn:?
  end.

Lemma ParseFloat_error (s : string) (f : Float64.float64) (err : error) :
  Strconv.ParseFloat s = (f, Some err) ->
  exists cause, err = NumError "ParseFloat" s cause.
Proof.
  unfold Strconv.ParseFloat. intros H.
  repeat (split_match H; try discriminate);
    inversion H; subst; eexists; reflexivity.
Qed.

Lemma Atoi_error (s : string) (n : Z) (err : error) :
  Strconv.Atoi s = (n, Some err) ->
  exists cause, err = NumError "Atoi" s cause.
Proof.
  unfold Strconv.Atoi. intros H.
  repeat (split_match H; try discriminate);
    inversion H; subst; eexists; reflexivity.
Qed.

Section EngineProperties.

Variables (Letter Digit : Z -> bool) (intUndef : Float64.float64 -> Z).

Let points := findPoints Letter Digit intUndef.
Let rule4 := findPoints_rule4 intUndef.
Let rule5 := findPoints_rule5 intUndef.

(** *** No score beside an error *)

Lemma rule7_error_zero re total out pts err :
  findPoints_rule7 re total = Return out (pts, Some err) ->
  pts = 0 /\ out = [].
Proof.
  unfold findPoints_rule7, index. intros H.
  repeat (split_match H; try discriminate); inversion H; split; reflexivity.
Qed.

Lemma rule6_error_zero re total out pts err :
  findPoints_rule6 re total = Return out (pts, Some err) ->
  pts = 0 /\ out = [].
Proof.
  unfold findPoints_rule6, index. intros H.
  repeat (split_match H; try discriminate);
    try (inversion H; split; reflexivity);
    eapply rule7_error_zero; eassumption.
Qed.

Lemma rule5_error_zero re items : forall total out pts err,
  rule5 re items total = Return out (pts, Some err) ->
  pts = 0 /\ out = [].
Proof.
  subst rule5.
  induction items as [|item items IH]; simpl; intros total out pts err H.
  - eapply rule6_error_zero; eassumption.
  - repeat (split_match H; try discriminate);
      try (inversion H; split; reflexivity);
      eapply IH; eassumption.
Qed.

Lemma findPoints_error_zero re out pts err :
  points re = Return out (pts, Some err) -> pts = 0.
Proof.
  subst points. unfold findPoints, findPoints_rule4. intros H.
  split_match H. split_match H.
  - inversion H; reflexivity.
  - eapply rule5_error_zero; eassumption.
Qed.

(** C8. Whenever [findPoints] returns an error, the score it returns
    with it is 0, and nothing was printed: none of the points counted
    before the failure is returned. *)
Theorem findPoints_no_partial_score re out pts err :
  findPoints Letter Digit intUndef re = Return out (pts, Some err) ->
  pts = 0 /\ out = [].
Proof.
  unfold findPoints, findPoints_rule4. intros H.
  destruct (Strconv.ParseFloat (Total re)) as [totalPrice [e|]].
  - inversion H. split; reflexivity.
  - eapply rule5_error_zero. subst rule5. exact H.
Qed.

(** *** The receipts of the test *)

(** C1. On the two receipts of the test, [findPoints] returns 28 and
    109 without an error, whatever their ids. *)
Theorem findPoints_test_receipts (id1 id2 : UUID) :
  findPoints Letter Digit intUndef (testReceipt1 id1) = Return [] (28, None)
  /\ findPoints Letter Digit intUndef (testReceipt2 id2) = Return [] (109, None).
Proof. split; vm_compute; reflexivity. Qed.

(** *** A time that is not two parts *)

(** A time of one part that is an integer: the index 1 is outside
    [timeSplit]. *)
Lemma rule7_one_part_panics (re : StorageReceipt) total t0 hrs :
  Strings.Split (PurchaseTime re) ":" = [t0] ->
  Strconv.Atoi t0 = (hrs, None) ->
  findPoints_rule7 re total = Panic [] (IndexOutOfRange 1 1).
Proof.
  intros Hs H0. unfold findPoints_rule7, index. rewrite Hs. simpl.
  rewrite H0. reflexivity.
Qed.

(** C2, at the inputs where it fails. The second test receipt with the
    time [1400], one part that is an integer: [findPoints] panics at
    [timeSplit[1]]. With the time [14:33:00], three parts: the third is
    never read and the score 109 is returned. The date of both splits in
    three with the day 20, the total and the prices parse. *)
Theorem findPoints_time_parts_unchecked (id : UUID) :
  List.length (Strings.Split "1400" ":") = 1%nat
  /\ findPoints Letter Digit intUndef (withPurchaseTime (testReceipt2 id) "1400")
     = Panic [] (IndexOutOfRange 1 1)
  /\ List.length (Strings.Split "14:33:00" ":") = 3%nat
  /\ findPoints Letter Digit intUndef
       (withPurchaseTime (testReceipt2 id) "14:33:00")
     = Return [] (109, None).
Proof. repeat split; vm_compute; reflexivity. Qed.

(** *** A price that does not parse *)

Lemma rule5_bad_price re items : forall total,
  (exists item, In item items /\ counted item
                /\ snd (Strconv.ParseFloat (Price item)) <> None) ->
  exists item f err,
    In item items /\ counted item
    /\ Strconv.ParseFloat (Price item) = (f, Some err)
    /\ rule5 re items total = Return [] (0, Some err).
Proof.
  subst rule5. unfold counted.
  induction items as [|it items IH]; intros total [bad [Hin [Hlen Hbad]]].
  - destruct Hin.
  - simpl.
    destruct (GoInt.rem (len (Strings.TrimSpace (ShortDescription it))) 3 =? 0)
      eqn:Hc.
    + destruct (Strconv.ParseFloat (Price it)) as [f [err|]] eqn:Hp.
      * exists it, f, err. apply Z.eqb_eq in Hc. simpl; auto.
      * destruct Hin as [->|Hin]; [rewrite Hp in Hbad; now elim Hbad|].
        destruct (IH (GoInt.add total
                        (Float64.to_int intUndef
                           (Float64.Ceil (Float64.mul f Float64.c_0_2)))))
          as (i & f' & e & Hi & Hk & Hpf & Hr); [now exists bad|].
        exists i, f', e. simpl; auto.
    + destruct Hin as [->|Hin]; [apply Z.eqb_neq in Hc; now elim Hc|].
      destruct (IH total) as (i & f' & e & Hi & Hk & Hpf & Hr); [now exists bad|].
      exists i, f', e. simpl; auto.
Qed.

(** *** The afternoon window *)

Lemma rule7_at (re : StorageReceipt) total t0 t1 rest hrs mins :
  Strings.Split (PurchaseTime re) ":" = t0 :: t1 :: rest ->
  Strconv.Atoi t0 = (hrs, None) ->
  Strconv.Atoi t1 = (mins, None) ->
  findPoints_rule7 re total
  = Return (if (hrs =? 14) && (mins =? 0)
            then [Println [PStr "do nothing, because it's exactly 2pm"]]
            else [])
      (if inAfternoonWindow hrs mins then GoInt.add total 10 else total, None).
Proof.
  intros Hs H0 H1. unfold findPoints_rule7, index, inAfternoonWindow.
  rewrite Hs. simpl. rewrite H0, H1.
  destruct ((hrs =? 14) && (mins =? 0)).
  - rewrite andb_false_r. reflexivity.
  - rewrite andb_true_r. destruct ((14 <=? hrs) && (hrs <? 16)); reflexivity.
Qed.

Lemma rule6_time_blind re total :
  time_blind (fun re => findPoints_rule6 re total) re.
Proof.
  unfold time_blind, findPoints_rule6, index.
  cbn [withPurchaseTime PurchaseDate Payload].
  destruct (negb (Nat.eqb (List.length (Strings.Split (PurchaseDate re) "-")) 3)).
  - right. eexists. split; [reflexivity | discriminate].
  - destruct (nth_error (Strings.Split (PurchaseDate re) "-") 2).
    + destruct (Strconv.Atoi s) as [n [e|]].
      * right. eexists. split; [reflexivity | discriminate].
      * left. eexists. reflexivity.
    + right. eexists. split; [reflexivity | discriminate].
Qed.

Lemma rule5_time_blind re items : forall total,
  time_blind (fun re => rule5 re items total) re.
Proof.
  subst rule5.
  induction items as [|item items IH]; intros total;
    cbn [findPoints_rule5].
  - apply rule6_time_blind.
  - destruct (GoInt.rem (len (Strings.TrimSpace (ShortDescription item))) 3 =? 0).
    + destruct (Strconv.ParseFloat (Price item)) as [f [e|]].
      * right. eexists. split; [reflexivity | discriminate].
      * apply IH.
    + apply IH.
Qed.

Lemma findPoints_time_blind re : time_blind points re.
Proof.
  subst points. unfold time_blind, findPoints, findPoints_rule4.
  cbn [withPurchaseTime Total Items Retailer Payload].
  destruct (Strconv.ParseFloat (Total re)) as [p [e|]].
  - right. eexists. split; [reflexivity | discriminate].
  - apply (rule5_time_blind re (Items re)).
Qed.

(** C5. When a receipt parses with some time, there is a total, the
    points of rules 1 to 6, with which [findPoints] enters rule 7 whatever
    the time is; with it the time [14:00] yields that total, [14:01] and
    [15:59] ten points more, [16:00] that total; and for any time of two
    integers, hours and minutes, the ten points are added exactly when the
    hour is at least 14 and below 16 and the time is not 14:00. *)
Theorem findPoints_afternoon_window (re : StorageReceipt) t0 out0 s0 :
  findPoints Letter Digit intUndef (withPurchaseTime re t0)
  = Return out0 (s0, None) ->
  exists total,
    (forall t,
        findPoints Letter Digit intUndef (withPurchaseTime re t)
        = findPoints_rule7 (withPurchaseTime re t) total)
    /\ findPoints Letter Digit intUndef (withPurchaseTime re "14:00")
       = Return [Println [PStr "do nothing, because it's exactly 2pm"]]
           (total, None)
    /\ findPoints Letter Digit intUndef (withPurchaseTime re "14:01")
       = Return [] (GoInt.add total 10, None)
    /\ findPoints Letter Digit intUndef (withPurchaseTime re "15:59")
       = Return [] (GoInt.add total 10, None)
    /\ findPoints Letter Digit intUndef (withPurchaseTime re "16:00")
       = Return [] (total, None)
    /\ forall t hh mm rest hrs mins,
        Strings.Split t ":" = hh :: mm :: rest ->
        Strconv.Atoi hh = (hrs, None) ->
        Strconv.Atoi mm = (mins, None) ->
        exists out,
          findPoints Letter Digit intUndef (withPurchaseTime re t)
          = Return out
              (if inAfternoonWindow hrs mins then GoInt.add total 10 else total,
               None).
Proof.
  intros H0.
  destruct (findPoints_time_blind re) as [[total Ht] | [r [Hr Hno]]].
  - subst points. exists total. split; [exact Ht|].
    repeat split; try (rewrite Ht; reflexivity).
    intros t hh mm rest hrs mins Hs Hh Hm. rewrite Ht.
    eexists. eapply rule7_at; eauto.
  - subst points. rewrite Hr in H0. elim (Hno _ _ H0).
Qed.

End EngineProperties.

(** ** Floors, ceilings and remainders *)

Lemma ceilZ_is_ceiling (s : bool) (m : positive) (e : Z) :
  is_ceiling s m e (Float64.ceilZ s m e).
Proof.
  unfold is_ceiling, Float64.ceilZ, Float64.floorZ.
  destruct (0 <=? e) eqn:He.
  - apply Z.leb_le in He. rewrite Z.shiftl_mul_pow2 by assumption.
    destruct s; simpl; lia.
  - apply Z.leb_gt in He. rewrite Z.shiftr_div_pow2 by lia.
    assert (Hd : 0 < 2 ^ (- e)) by (apply Z.pow_pos_nonneg; lia).
    set (d := 2 ^ (- e)) in *.
    set (a := cond_Zopp (negb s) (Zpos m)).
    assert (Ha : cond_Zopp s (Zpos m) = - a) by (subst a; destruct s; simpl; lia).
    rewrite Ha.
    pose proof (Z.mul_div_le a d Hd).
    pose proof (Z.mul_succ_div_gt a d Hd).
    nia.
Qed.

Lemma to_int_exact_int (undef : Float64.float64 -> Z) (n : Z) (szero : bool) :
  GoInt.inRange n = true ->
  Float64.to_int undef (Float64.exact_int n szero) = n.
Proof.
  intros Hn. destruct n as [|p|p]; simpl; try reflexivity;
    rewrite Hn; reflexivity.
Qed.

Lemma to_int_Ceil (undef : Float64.float64 -> Z) (s : bool) (m : positive) (e : Z) :
  GoInt.inRange (Float64.ceilZ s m e) = true ->
  Float64.to_int undef (Float64.Ceil (S754_finite s m e)) = Float64.ceilZ s m e.
Proof.
  intros Hn. unfold Float64.Ceil.
  destruct (0 <=? e) eqn:He.
  - unfold Float64.ceilZ, Float64.floorZ in *. rewrite He in Hn.
    unfold Float64.to_int. rewrite He.
    assert (Hc : cond_Zopp s (Z.shiftl (Zpos m) e)
                 = - cond_Zopp (negb s) (Z.shiftl (Zpos m) e))
      by (destruct s; simpl; lia).
    rewrite Hc, Hn. reflexivity.
  - apply to_int_exact_int. assumption.
Qed.

(** A finite value equal to its floor is an integer: with a negative
    exponent [e], its mantissa is a multiple of [2^(-e)]. *)
Lemma eqb_Floor_multiple (s : bool) (m : positive) (e : Z) :
  Float64.eqb (S754_finite s m e) (Float64.Floor (S754_finite s m e)) = true ->
  0 <= e \/ exists q, Zpos m = q * 2 ^ (- e).
Proof.
  unfold Float64.Floor. destruct (0 <=? e) eqn:He.
  - intros _. left. apply Z.leb_le. assumption.
  - apply Z.leb_gt in He. intros H. right.
    destruct (Float64.floorZ s m e) as [|p|p]; simpl in H; try discriminate;
      apply andb_prop in H; destruct H as [_ H]; apply Z.eqb_eq in H;
      rewrite Z.min_l in H by lia;
      rewrite Z.sub_diag, Z.shiftl_0_r, Z.shiftl_mul_pow2 in H by lia;
      exists (Zpos p); rewrite H; f_equal; lia.
Qed.

(** The mantissa of such a value, aligned with that of 0.25, is a multiple
    of it. *)
Lemma aligned_quarter_multiple (m : positive) (e : Z) :
  0 <= e \/ (exists q, Zpos m = q * 2 ^ (- e)) ->
  Z.shiftl (Zpos m) (e - Z.min e (-54))
    mod Z.shiftl 4503599627370496 (-54 - Z.min e (-54)) = 0.
Proof.
  intros H.
  change 4503599627370496 with (2 ^ 52).
  destruct (Z_le_gt_dec (-54) e) as [Hle|Hgt].
  - rewrite Z.min_r by lia.
    rewrite Z.sub_diag, Z.shiftl_0_r, Z.shiftl_mul_pow2 by lia.
    destruct H as [He|[q Hq]].
    + replace (e - -54) with (e + 2 + 52) by lia.
      rewrite Z.pow_add_r by lia.
      rewrite Z.mul_assoc. apply Z_mod_mult.
    + destruct (Z_le_gt_dec 0 e) as [He|He].
      * replace (e - -54) with (e + 2 + 52) by lia.
        rewrite Z.pow_add_r by lia.
        rewrite Z.mul_assoc. apply Z_mod_mult.
      * rewrite Hq, <- Z.mul_assoc, <- Z.pow_add_r by lia.
        replace (- e + (e - -54)) with (2 + 52) by lia.
        rewrite Z.pow_add_r by lia.
        rewrite Z.mul_assoc. apply Z_mod_mult.
  - rewrite Z.min_l by lia.
    rewrite Z.sub_diag, Z.shiftl_0_r, Z.shiftl_mul_pow2 by lia.
    rewrite <- Z.pow_add_r by lia.
    destruct H as [He|[q Hq]]; [lia|].
    rewrite Hq.
    replace (- e) with (2 + (52 + (-54 - e))) at 1 by lia.
    rewrite Z.pow_add_r by lia.
    rewrite Z.mul_assoc. apply Z_mod_mult.
Qed.

Lemma c_0_25_bits :
  Float64.c_0_25 = S754_finite false 4503599627370496 (-54).
Proof. vm_compute. reflexivity. Qed.

(** A finite total that earns the bonus of rule 2 earns that of rule 3. *)
Lemma round_dollar_is_quarter_multiple (p : Float64.float64) :
  Float64.is_finite p = true ->
  Float64.eqb p (Float64.Floor p) = true ->
  Float64.eqb (Float64.Mod p Float64.c_0_25) Float64.c_0 = true.
Proof.
  destruct p as [s|s| |s m e]; intros Hf H; try discriminate Hf.
  - vm_compute. reflexivity.
  - rewrite c_0_25_bits. unfold Float64.Mod.
    cbv zeta.
    rewrite (aligned_quarter_multiple m e (eqb_Floor_multiple s m e H)).
    reflexivity.
Qed.

Section TotalRules.

Variables (Letter Digit : Z -> bool) (intUndef : Float64.float64 -> Z).

Lemma ParseFloat_35_35 :
  Strconv.ParseFloat "35.35" = (S754_finite false 4975070213360845 (-47), None).
Proof. vm_compute. reflexivity. Qed.

Lemma ParseFloat_9_00 :
  Strconv.ParseFloat "9.00" = (S754_finite false 5066549580791808 (-49), None).
Proof. vm_compute. reflexivity. Qed.

End TotalRules.

(** ** The handlers and the store *)

Lemma NoDup_snoc {A : Type} (l : list A) (a : A) :
  NoDup l -> ~ In a l -> NoDup (l ++ [a]).
Proof.
  induction 1 as [|x l Hx Hl IH]; simpl; intros Ha.
  - constructor; [intros [] | constructor].
  - constructor.
    + rewrite in_app_iff. simpl. intuition congruence.
    + apply IH. intuition.
Qed.

Section HandlerProperties.

Variables (Letter Digit : Z -> bool) (intUndef : Float64.float64 -> Z).

Let lookup := lookupPoints Letter Digit intUndef.
Let handleGet := handleGetReceiptPoints Letter Digit intUndef.
Let served := serve Letter Digit intUndef.

(** The lookup of an id whose first match makes [findPoints] fail. *)
Lemma lookupPoints_error idFromURL written receipt out pts err :
  forall receipts,
  find (fun r => String.eqb idFromURL (UUID_String (Id r))) receipts
  = Some receipt ->
  findPoints Letter Digit intUndef receipt = Return out (pts, Some err) ->
  exists out',
    lookup receipts idFromURL written
    = Return out' [Write (fst (marshalPoints 0))]
    /\ In (Println [PStr "error with calculating points: "; PErr err]) out'.
Proof.
  subst lookup.
  induction receipts as [|r receipts IH]; simpl; intros Hfind Hpoints.
  - discriminate.
  - destruct (String.eqb idFromURL (UUID_String (Id r))).
    + inversion Hfind; subst r. rewrite Hpoints.
      rewrite (findPoints_error_zero _ _ _ _ _ _ _ Hpoints).
      destruct written; eexists; (split; [reflexivity|]);
        rewrite ?in_app_iff; simpl; auto.
    + apply IH; assumption.
Qed.

(** C4. When the id of the request is found in the store and
    [findPoints] returns an error for the receipt found, the handler
    prints the error on the standard output and still writes the JSON
    body of a points response with the score 0; it never calls
    [WriteHeader], so the status is 200. *)
Theorem handleGetReceiptPoints_swallows_error
  (rh : ReceiptHandler) (idFromURL : string) (written : option error)
  (receipt : StorageReceipt) out pts err :
  FindByID rh idFromURL = Some receipt ->
  findPoints Letter Digit intUndef receipt = Return out (pts, Some err) ->
  exists out' calls,
    handleGetReceiptPoints Letter Digit intUndef rh idFromURL written
    = Return out' (rh, calls)
    /\ In (Println [PStr "error with calculating points: "; PErr err]) out'
    /\ calls = [Write (fst (marshalPoints pts))]
    /\ bodyOf calls = ("{" ++ quote ++ "points" ++ quote ++ ":0}")%string
    /\ statusOf calls = Some StatusOK.
Proof.
  intros Hfind Hpoints.
  destruct (lookupPoints_error idFromURL written receipt out pts err
              (Receipts rh) Hfind Hpoints) as (out' & Hl & Hin).
  subst lookup. unfold handleGetReceiptPoints. rewrite Hl.
  rewrite (findPoints_error_zero _ _ _ _ _ _ _ Hpoints).
  exists out', [Write (fst (marshalPoints 0))].
  repeat split; auto.
Qed.

(** *** The store only grows *)

Lemma serve_Receipts (rh : ReceiptHandler) (rq : request) :
  Receipts (served rh rq) = (Receipts rh ++ stored rq)%list.
Proof.
  subst served. destruct rq as [[[p [e|]] [u [e'|]] w] | idFromURL written];
    unfold serve, stored, generated, handleProcessReceipts,
      handleGetReceiptPoints; simpl;
    try (destruct w; simpl; rewrite ?app_nil_r; reflexivity);
    try (rewrite app_nil_r; reflexivity).
  destruct (lookupPoints Letter Digit intUndef (Receipts rh) idFromURL written);
    rewrite app_nil_r; reflexivity.
Qed.

Lemma stored_ids (rq : request) :
  map Id (stored rq)
  = match generated rq with Some u => [u] | None => [] end.
Proof.
  destruct rq as [env|]; simpl; [|reflexivity].
  destruct (decoded env) as [p [e|]], (newV7 env) as [u [e'|]]; reflexivity.
Qed.

Lemma serve_NoDup (rh : ReceiptHandler) (rq : request) :
  NoDup (map Id (Receipts rh)) -> fresh rh rq ->
  NoDup (map Id (Receipts (served rh rq))).
Proof.
  intros Hnd Hfresh. rewrite serve_Receipts, map_app, stored_ids.
  unfold fresh in Hfresh. destruct (generated rq).
  - apply NoDup_snoc; assumption.
  - rewrite app_nil_r. assumption.
Qed.

Lemma reachable_NoDup (rh : ReceiptHandler) :
  reachable Letter Digit intUndef rh -> NoDup (map Id (Receipts rh)).
Proof.
  induction 1 as [|rh rq Hreach IH Hfresh].
  - constructor.
  - apply serve_NoDup; assumption.
Qed.

(** C9. In every state of the store a server can reach when the
    identifiers generated are fresh, the ids of the stored receipts are
    all different; a request leaves the receipts stored as they are, in
    their order, and adds at most one after them; a submission that is
    decoded and gets an identifier adds exactly one, the receipt decoded
    under that identifier; and the state after a request with a fresh
    identifier has ids that are all different again. *)
Theorem store_append_only_unique_ids (rh : ReceiptHandler) :
  reachable Letter Digit intUndef rh ->
  NoDup (map Id (Receipts rh))
  /\ (forall rq,
        Receipts (serve Letter Digit intUndef rh rq)
        = (Receipts rh ++ stored rq)%list
        /\ (List.length (stored rq) <= 1)%nat)
  /\ (forall receipt u written,
        Receipts (serve Letter Digit intUndef rh
                    (PostReceipt {| decoded := (receipt, None);
                                    newV7 := (u, None);
                                    postWritten := written |}))
        = (Receipts rh ++ [ {| Payload := receipt; Id := u |} ])%list)
  /\ (forall rq, fresh rh rq ->
        NoDup (map Id (Receipts (serve Letter Digit intUndef rh rq)))).
Proof.
  intros Hreach. pose proof (reachable_NoDup rh Hreach) as Hnd.
  split; [exact Hnd|]. split; [|split].
  - intros rq. split; [apply serve_Receipts|].
    destruct rq as [env|]; simpl; [|lia].
    destruct (decoded env) as [p [e|]], (newV7 env) as [u [e'|]]; simpl; lia.
  - intros receipt u written. apply (serve_Receipts rh).
  - intros rq. apply serve_NoDup. exact Hnd.
Qed.

End HandlerProperties.

(** ** The theorems at concrete receipts *)

(** C8 at the receipt [countedBadPrice]. *)
Lemma findPoints_no_partial_score_witness :
  run (countedBadPrice (sampleId 1))
  = Return [] (0, Some (NumError "ParseFloat" "x" ErrSyntax))
  /\ 0 = 0 /\ @nil stdoutCall = [].
Proof.
  assert (H : run (countedBadPrice (sampleId 1))
              = Return [] (0, Some (NumError "ParseFloat" "x" ErrSyntax)))
    by (vm_compute; reflexivity).
  split; [exact H|].
  exact (findPoints_no_partial_score noEntries noEntries integerIndefinite
           (countedBadPrice (sampleId 1)) [] 0
           (NumError "ParseFloat" "x" ErrSyntax) H).
Defined.

(** C5 at the second receipt of the test, which parses with its own time
    [14:33]. *)
Lemma findPoints_afternoon_window_witness :
  run (withPurchaseTime (testReceipt2 (sampleId 2)) "14:33")
  = Return [] (109, None)
  /\ exists total,
      (forall t,
          run (withPurchaseTime (testReceipt2 (sampleId 2)) t)
          = findPoints_rule7 (withPurchaseTime (testReceipt2 (sampleId 2)) t) total)
      /\ run (withPurchaseTime (testReceipt2 (sampleId 2)) "14:00")
         = Return [Println [PStr "do nothing, because it's exactly 2pm"]]
             (total, None)
      /\ run (withPurchaseTime (testReceipt2 (sampleId 2)) "14:01")
         = Return [] (GoInt.add total 10, None)
      /\ run (withPurchaseTime (testReceipt2 (sampleId 2)) "15:59")
         = Return [] (GoInt.add total 10, None)
      /\ run (withPurchaseTime (testReceipt2 (sampleId 2)) "16:00")
         = Return [] (total, None)
      /\ forall t hh mm rest hrs mins,
          Strings.Split t ":" = hh :: mm :: rest ->
          Strconv.Atoi hh = (hrs, None) ->
          Strconv.Atoi mm = (mins, None) ->
          exists out,
            run (withPurchaseTime (testReceipt2 (sampleId 2)) t)
            = Return out
                (if inAfternoonWindow hrs mins then GoInt.add total 10 else total,
                 None).
Proof.
  assert (H : run (withPurchaseTime (testReceipt2 (sampleId 2)) "14:33")
              = Return [] (109, None)) by (vm_compute; reflexivity).
  split; [exact H|].
  exact (findPoints_afternoon_window noEntries noEntries integerIndefinite
           (testReceipt2 (sampleId 2)) "14:33" [] 109 H).
Defined.

(** The four times of C5 on the second receipt of the test: 99 points at
    14:00 and 16:00, 109 at 14:01 and 15:59. *)
Example afternoon_window_scores :
  map (fun t => run (withPurchaseTime (testReceipt2 (sampleId 2)) t))
    ["14:00"; "14:01"; "15:59"; "16:00"]
  = [ Return [Println [PStr "do nothing, because it's exactly 2pm"]] (99, None);
      Return [] (109, None); Return [] (109, None); Return [] (99, None) ].
Proof. vm_compute. reflexivity. Qed.

(** The points of [blankItem]: the product 5.00 * 0.2 rounds to 1. *)
Example blankItem_points :
  Float64.to_int integerIndefinite
    (Float64.Ceil
       (Float64.mul (S754_finite false 5629499534213120 (-50)) Float64.c_0_2))
  = 1.
Proof. vm_compute. reflexivity. Qed.

(** C4 at the store [sampleStore] and the id of its second receipt. *)
Lemma handleGetReceiptPoints_swallows_error_witness :
  FindByID sampleStore (UUID_String (sampleId 2))
  = Some (withTotal (testReceipt2 (sampleId 2)) "abc")
  /\ run (withTotal (testReceipt2 (sampleId 2)) "abc")
     = Return [] (0, Some (NumError "ParseFloat" "abc" ErrSyntax))
  /\ exists out' calls,
      handleGetReceiptPoints noEntries noEntries integerIndefinite sampleStore
        (UUID_String (sampleId 2)) None
      = Return out' (sampleStore, calls)
      /\ In (Println [PStr "error with calculating points: ";
                      PErr (NumError "ParseFloat" "abc" ErrSyntax)]) out'
      /\ calls = [Write (fst (marshalPoints 0))]
      /\ bodyOf calls = ("{" ++ quote ++ "points" ++ quote ++ ":0}")%string
      /\ statusOf calls = Some StatusOK.
Proof.
  assert (H1 : FindByID sampleStore (UUID_String (sampleId 2))
               = Some (withTotal (testReceipt2 (sampleId 2)) "abc"))
    by (vm_compute; reflexivity).
  assert (H2 : run (withTotal (testReceipt2 (sampleId 2)) "abc")
               = Return [] (0, Some (NumError "ParseFloat" "abc" ErrSyntax)))
    by (vm_compute; reflexivity).
  split; [exact H1|]. split; [exact H2|].
  exact (handleGetReceiptPoints_swallows_error noEntries noEntries
           integerIndefinite sampleStore (UUID_String (sampleId 2)) None
           _ _ _ _ H1 H2).
Defined.

(** The response of that lookup, in full. *)
Example sampleStore_lookup :
  handleGetReceiptPoints noEntries noEntries integerIndefinite sampleStore
    "0192e047-5a11-7000-8000-000000000002" None
  = Return [Println [PStr "error with calculating points: ";
                     PErr (NumError "ParseFloat" "abc" ErrSyntax)]]
      (sampleStore, [Write ("{" ++ quote ++ "points" ++ quote ++ ":0}")]).
Proof. vm_compute. reflexivity. Qed.

(** C9 at the store a first submission leaves. *)
Lemma store_append_only_unique_ids_witness :
  reachable noEntries noEntries integerIndefinite
    (serve noEntries noEntries integerIndefinite NewReceiptHandler samplePost)
  /\ NoDup (map Id (Receipts
       (serve noEntries noEntries integerIndefinite NewReceiptHandler samplePost))).
Proof.
  assert (H : reachable noEntries noEntries integerIndefinite
                (serve noEntries noEntries integerIndefinite NewReceiptHandler
                   samplePost)).
  { apply reachable_serve; [apply reachable_new|]. intros []. }
  split; [exact H|].
  exact (proj1 (store_append_only_unique_ids noEntries noEntries
                  integerIndefinite _ H)).
Defined.

(** The store after that submission and a second one holds both receipts,
    in the order they came. *)
Example two_submissions :
  Receipts
    (serve noEntries noEntries integerIndefinite
       (serve noEntries noEntries integerIndefinite NewReceiptHandler samplePost)
       (PostReceipt {| decoded := (Payload (testReceipt2 (sampleId 2)), None);
                       newV7 := (sampleId 2, None);
                       postWritten := None |}))
  = [testReceipt1 (sampleId 1); testReceipt2 (sampleId 2)].
Proof. reflexivity. Qed.

(** * Further properties of the code *)

(** ** [strings.Split] on one byte *)

Lemma Split_length (s : string) (sep : ascii) :
  List.length (Strings.Split s sep) = S (countByte sep s).
Proof.
  induction s as [|c s IH]; simpl; [reflexivity|].
  destruct (Ascii.eqb c sep); simpl.
  - rewrite IH. reflexivity.
  - destruct (Strings.Split s sep); simpl in *; [discriminate | assumption].
Qed.

Lemma Split_single (s : string) (sep : ascii) (t : string) :
  Strings.Split s sep = [t] -> t = s /\ countByte sep s = O.
Proof.
  revert t. induction s as [|c s IH]; simpl; intros t H.
  - inversion H. split; reflexivity.
  - destruct (Ascii.eqb c sep).
    + pose proof (Split_length s sep) as Hl.
      inversion H as [[Ht Hs]]. rewrite Hs in Hl. discriminate.
    + destruct (Strings.Split s sep) as [|piece pieces] eqn:Hs.
      * pose proof (Split_length s sep) as Hl. rewrite Hs in Hl. discriminate.
      * inversion H; subst. destruct (IH piece eq_refl) as [-> Hc].
        split; [reflexivity | assumption].
Qed.

(** ** When [findPoints] returns a score *)

Section Scoring.

Variables (Letter Digit : Z -> bool) (intUndef : Float64.float64 -> Z).

Lemma rule7_scores (re : StorageReceipt) (total : Z) :
  (exists out s, findPoints_rule7 re total = Return out (s, None))
  <-> timeOK re.
Proof.
  unfold timeOK, findPoints_rule7, index. split.
  - intros (out & s & H).
    destruct (Strings.Split (PurchaseTime re) ":") as [|hh [|mm rest]];
      simpl in H; try discriminate.
    + destruct (Strconv.Atoi hh) as [hrs [e|]]; discriminate.
    + exists hh, mm, rest.
      destruct (Strconv.Atoi hh) as [hrs [e|]]; [discriminate|].
      destruct (Strconv.Atoi mm) as [mins [e|]]; [discriminate|].
      auto.
  - intros (hh & mm & rest & Hs & Hh & Hm). rewrite Hs. simpl.
    destruct (Strconv.Atoi hh) as [hrs [e|]]; [discriminate|].
    destruct (Strconv.Atoi mm) as [mins [e|]]; [discriminate|].
    destruct ((hrs =? 14) && (mins =? 0)); [eauto|].
    destruct ((14 <=? hrs) && (hrs <? 16)); eauto.
Qed.

Lemma rule6_scores (re : StorageReceipt) (total : Z) :
  (exists out s, findPoints_rule6 re total = Return out (s, None))
  <-> dateOK re /\ timeOK re.
Proof.
  unfold dateOK, findPoints_rule6, index. split.
  - intros (out & s & H).
    destruct (Strings.Split (PurchaseDate re) "-") as [|y [|m [|d [|x rest]]]];
      simpl in H; try discriminate.
    destruct (Strconv.Atoi d) as [n [e|]] eqn:Hd; [discriminate|].
    split.
    + exists y, m, d. rewrite Hd. auto.
    + eapply rule7_scores; eauto.
  - intros [(y & m & d & Hs & Hd) Ht]. rewrite Hs. simpl.
    destruct (Strconv.Atoi d) as [n [e|]]; [discriminate|].
    apply rule7_scores. assumption.
Qed.

Lemma rule5_scores (re : StorageReceipt) (items : list Item) : forall total,
  (exists out s, findPoints_rule5 intUndef re items total = Return out (s, None))
  <-> itemsOK items /\ dateOK re /\ timeOK re.
Proof.
  unfold itemsOK, counted.
  induction items as [|item items IH]; intros total; cbn [findPoints_rule5].
  - rewrite rule6_scores. split.
    + intros [Hd Ht]. split; [intros it []|auto].
    + intros (_ & Hd & Ht). auto.
  - destruct (GoInt.rem (len (Strings.TrimSpace (ShortDescription item))) 3 =? 0)
      eqn:Hc.
    + destruct (Strconv.ParseFloat (Price item)) as [f [e|]] eqn:Hp.
      * split.
        { intros (out & s & H). discriminate. }
        { intros [Hi _]. apply Z.eqb_eq in Hc.
          specialize (Hi item (or_introl eq_refl) Hc).
          rewrite Hp in Hi. discriminate. }
      * rewrite IH. split.
        { intros (Hi & Hd & Ht). split; [|auto].
          intros it [<-|Hin] Hcount; [rewrite Hp; reflexivity | auto]. }
        { intros (Hi & Hd & Ht). split; [|auto].
          intros it Hin Hcount. apply Hi; [right|]; assumption. }
    + rewrite IH. apply Z.eqb_neq in Hc. split.
      * intros (Hi & Hd & Ht). split; [|auto].
        intros it [<-|Hin] Hcount; [contradiction | auto].
      * intros (Hi & Hd & Ht). split; [|auto].
        intros it Hin Hcount. apply Hi; [right|]; assumption.
Qed.

(** X1. [findPoints] returns a score with no error exactly when the
    total parses, the price of every item whose trimmed description has a
    length that is a multiple of 3 parses, the date splits on [-] in three
    parts of which the third is an integer, and the time splits on [:] in
    two parts or more of which the first two are integers. *)
Theorem findPoints_scores_iff (re : StorageReceipt) :
  (exists out s, findPoints Letter Digit intUndef re = Return out (s, None))
  <-> totalOK re /\ itemsOK (Items re) /\ dateOK re /\ timeOK re.
Proof.
  unfold totalOK, findPoints, findPoints_rule4.
  destruct (Strconv.ParseFloat (Total re)) as [p [e|]]; simpl.
  - split.
    + intros (out & s & H). discriminate.
    + intros [H _]. discriminate.
  - rewrite rule5_scores. split.
    + intros H. split; [reflexivity | exact H].
    + intros [_ H]. exact H.
Qed.

End Scoring.

(** ** How [findPoints] ends *)

Lemma Split_no_sep (s : string) (sep : ascii) :
  countByte sep s = O -> Strings.Split s sep = [s].
Proof.
  intros Hc. pose proof (Split_length s sep) as Hl. rewrite Hc in Hl.
  destruct (Strings.Split s sep) as [|t [|t' rest]] eqn:Hs; try discriminate.
  destruct (Split_single s sep t Hs) as [-> _]. reflexivity.
Qed.

Section Endings.

Variables (Letter Digit : Z -> bool) (intUndef : Float64.float64 -> Z).

(** The item loop either leaves the items behind with some total, or
    returns the error of the price of an item that passes the guard. *)
Lemma rule5_cases (re : StorageReceipt) (items : list Item) : forall total,
  (itemsOK items
   /\ exists total',
       findPoints_rule5 intUndef re items total = findPoints_rule6 re total')
  \/ (exists item f err,
        In item items /\ counted item
        /\ Strconv.ParseFloat (Price item) = (f, Some err)
        /\ findPoints_rule5 intUndef re items total = Return [] (0, Some err)).
Proof.
  unfold itemsOK, counted.
  induction items as [|item items IH]; intros total; cbn [findPoints_rule5].
  - left. split; [intros it []|eauto].
  - destruct (GoInt.rem (len (Strings.TrimSpace (ShortDescription item))) 3 =? 0)
      eqn:Hc.
    + apply Z.eqb_eq in Hc.
      destruct (Strconv.ParseFloat (Price item)) as [f [e|]] eqn:Hp.
      * right. exists item, f, e. simpl; auto.
      * destruct (IH (GoInt.add total
                        (Float64.to_int intUndef
                           (Float64.Ceil (Float64.mul f Float64.c_0_2)))))
          as [[Hi [t' Ht']] | (it & f' & e & Hin & Hk & Hpf & Hr)].
        { left. split; [|eauto].
          intros it [<-|Hin] Hcount; [rewrite Hp; reflexivity | auto]. }
        { right. exists it, f', e. simpl; auto. }
    + apply Z.eqb_neq in Hc.
      destruct (IH total)
        as [[Hi [t' Ht']] | (it & f' & e & Hin & Hk & Hpf & Hr)].
      * left. split; [|eauto].
        intros it [<-|Hin] Hcount; [contradiction | auto].
      * right. exists it, f', e. simpl; auto.
Qed.

(** Rule 6 either passes the date with some total, or returns the error of
    the number of parts or of the day. *)
Lemma rule6_cases (re : StorageReceipt) (total : Z) :
  (dateOK re
   /\ exists total', findPoints_rule6 re total = findPoints_rule7 re total')
  \/ (countByte "-" (PurchaseDate re) <> 2%nat
      /\ findPoints_rule6 re total
         = Return [] (0, Some (Errorf "invalid date. Must follow the YYYY-MM-DD scheme")))
  \/ (exists day n err,
        countByte "-" (PurchaseDate re) = 2%nat
        /\ nth_error (Strings.Split (PurchaseDate re) "-") 2 = Some day
        /\ Strconv.Atoi day = (n, Some err)
        /\ findPoints_rule6 re total = Return [] (0, Some err)).
Proof.
  unfold dateOK, findPoints_rule6, index.
  pose proof (Split_length (PurchaseDate re) "-") as Hl.
  destruct (Strings.Split (PurchaseDate re) "-") as [|y [|m [|d [|x rest]]]];
    simpl in *; try (right; left; split; [lia | reflexivity]).
  destruct (Strconv.Atoi d) as [n [e|]] eqn:Hd.
  - right. right. exists d, n, e. repeat split; auto; lia.
  - left. split; [|eauto]. exists y, m, d. rewrite Hd. auto.
Qed.

(** Rule 7 returns a score, or the error of one of the first two parts of
    the time, or panics on a time of one part that is an integer. *)
Lemma rule7_cases (re : StorageReceipt) (total : Z) :
  (timeOK re /\ exists out s, findPoints_rule7 re total = Return out (s, None))
  \/ (exists t n err,
        (nth_error (Strings.Split (PurchaseTime re) ":") 0 = Some t
         \/ nth_error (Strings.Split (PurchaseTime re) ":") 1 = Some t)
        /\ Strconv.Atoi t = (n, Some err)
        /\ findPoints_rule7 re total = Return [] (0, Some err))
  \/ (countByte ":" (PurchaseTime re) = O
      /\ snd (Strconv.Atoi (PurchaseTime re)) = None
      /\ findPoints_rule7 re total = Panic [] (IndexOutOfRange 1 1)).
Proof.
  destruct (Strings.Split (PurchaseTime re) ":") as [|hh [|mm rest]] eqn:Hs.
  - pose proof (Split_length (PurchaseTime re) ":") as Hl.
    rewrite Hs in Hl. discriminate.
  - destruct (Split_single _ _ _ Hs) as [-> Hc].
    unfold findPoints_rule7, index. rewrite Hs. simpl.
    destruct (Strconv.Atoi (PurchaseTime re)) as [hrs [e|]] eqn:Hh.
    + right. left. exists (PurchaseTime re), hrs, e. auto.
    + right. right. auto.
  - unfold timeOK, findPoints_rule7, index. rewrite Hs. simpl.
    destruct (Strconv.Atoi hh) as [hrs [e|]] eqn:Hh.
    + right. left. exists hh, hrs, e. auto.
    + destruct (Strconv.Atoi mm) as [mins [e|]] eqn:Hm.
      * right. left. exists mm, mins, e. auto.
      * left. split.
        { exists hh, mm, rest. rewrite Hh, Hm. auto. }
        { destruct ((hrs =? 14) && (mins =? 0)); [eauto|].
          destruct ((14 <=? hrs) && (hrs <? 16)); eauto. }
Qed.

(** The three ways [findPoints] ends, with what the receipt is in each. *)
Lemma findPoints_cases (re : StorageReceipt) :
  (timeOK re
   /\ exists out s, findPoints Letter Digit intUndef re = Return out (s, None))
  \/ (exists err,
        errorSource re err
        /\ findPoints Letter Digit intUndef re = Return [] (0, Some err))
  \/ (totalOK re /\ itemsOK (Items re) /\ dateOK re
      /\ countByte ":" (PurchaseTime re) = O
      /\ snd (Strconv.Atoi (PurchaseTime re)) = None
      /\ findPoints Letter Digit intUndef re = Panic [] (IndexOutOfRange 1 1)).
Proof.
  unfold totalOK, errorSource, findPoints, findPoints_rule4.
  destruct (Strconv.ParseFloat (Total re)) as [p [e|]] eqn:Hp; simpl.
  { right. left. exists e. split; [left; eauto | reflexivity]. }
  match goal with
  | |- context [findPoints_rule5 _ _ _ ?t] =>
      destruct (rule5_cases re (Items re) t)
        as [[Hi [t5 ->]] | (item & f & err & Hin & Hk & Hpf & ->)]
  end.
  2: { right. left. exists err. split; [right; left; eauto | reflexivity]. }
  destruct (rule6_cases re t5)
    as [[Hd [t6 ->]] | [[Hn ->] | (day & n & err & _ & Hday & Ha & ->)]].
  2: { right. left. eexists. split; [right; right; left; eauto | reflexivity]. }
  2: { right. left. exists err.
       split; [right; right; right; left; eauto | reflexivity]. }
  destruct (rule7_cases re t6)
    as [[Ht Hr] | [(t & n & err & Hnth & Ha & ->) | (Hc & Ha & ->)]].
  - left. auto.
  - right. left. exists err.
    split; [right; right; right; right; eauto | reflexivity].
  - right. right. auto 10.
Qed.

(** An error with a source is at odds with a receipt whose total, items
    and date are right and whose time is one integer. *)
Lemma errorSource_excluded (re : StorageReceipt) (err : error) :
  errorSource re err ->
  totalOK re -> itemsOK (Items re) -> dateOK re ->
  countByte ":" (PurchaseTime re) = O ->
  snd (Strconv.Atoi (PurchaseTime re)) = None ->
  False.
Proof.
  unfold totalOK, itemsOK, dateOK.
  intros [(f & Hf) | [(item & f & Hin & Hk & Hf)
                     | [[_ Hn] | [(day & n & Hnth & Hd)
                                 | (t & n & Hnth & Ht)]]]]
         Htot Hitems (y & m & d & Hs & Hday) Hc Ha.
  - rewrite Hf in Htot. discriminate.
  - specialize (Hitems item Hin Hk). rewrite Hf in Hitems. discriminate.
  - pose proof (Split_length (PurchaseDate re) "-") as Hl.
    rewrite Hs in Hl. simpl in Hl. congruence.
  - rewrite Hs in Hnth. simpl in Hnth. inversion Hnth; subst day.
    rewrite Hd in Hday. discriminate.
  - rewrite (Split_no_sep _ _ Hc) in Hnth. simpl in Hnth.
    destruct Hnth as [Hnth|Hnth]; [|discriminate].
    inversion Hnth; subst t. rewrite Ht in Ha. discriminate.
Qed.

(** X2. [findPoints] panics exactly when the total, the prices of the
    items that pass the guard of rule 5 and the date are right and the
    time, without any [:], is an integer as a whole; the panic is that of
    the index 1 in a slice of length 1, and nothing is printed before it.
    A time with a [:] never makes it panic. *)
Theorem findPoints_panics_iff (re : StorageReceipt) out p :
  findPoints Letter Digit intUndef re = Panic out p
  <-> out = [] /\ p = IndexOutOfRange 1 1
      /\ totalOK re /\ itemsOK (Items re) /\ dateOK re
      /\ countByte ":" (PurchaseTime re) = O
      /\ snd (Strconv.Atoi (PurchaseTime re)) = None.
Proof.
  destruct (findPoints_cases re)
    as [(Htime & o & s & Hr)
       | [(err & Hsrc & Hr) | (Ht & Hi & Hd & Hc & Ha & Hr)]];
    rewrite Hr; split; try discriminate.
  - intros (_ & _ & _ & _ & _ & Hc & _).
    destruct Htime as (hh & mm & rest & Hs & _).
    rewrite (Split_no_sep _ _ Hc) in Hs. discriminate.
  - intros (_ & _ & Ht & Hi & Hd & Hc & Ha).
    elim (errorSource_excluded re err Hsrc Ht Hi Hd Hc Ha).
  - intros H. inversion H. auto 10.
  - intros (-> & -> & _). reflexivity.
Qed.

(** X3. An error of [findPoints] is never one of its own making but for
    the date: it is the error [strconv.ParseFloat] returned for the total
    or for the price of an item whose trimmed description has a length
    that is a multiple of 3, or the error [strconv.Atoi] returned for the
    third part of the date or for one of the first two parts of the time,
    or the error of a date whose number of hyphens is not 2. *)
Theorem findPoints_error_source (re : StorageReceipt) out pts err :
  findPoints Letter Digit intUndef re = Return out (pts, Some err) ->
  errorSource re err.
Proof.
  destruct (findPoints_cases re)
    as [(Htime & o & s & Hr)
       | [(err' & Hsrc & Hr) | (Ht & Hi & Hd & Hc & Ha & Hr)]];
    rewrite Hr; intros H; inversion H; subst; assumption.
Qed.

(** X4. When the total parses and the price of every item that passes
    the guard of rule 5 parses, a date whose number of hyphens is not 2
    makes [findPoints] return the score 0 and the error of the date,
    whatever the time is. *)
Theorem findPoints_invalid_date (re : StorageReceipt) :
  totalOK re -> itemsOK (Items re) ->
  countByte "-" (PurchaseDate re) <> 2%nat ->
  findPoints Letter Digit intUndef re
  = Return [] (0, Some (Errorf "invalid date. Must follow the YYYY-MM-DD scheme")).
Proof.
  unfold totalOK, findPoints, findPoints_rule4. intros Htot Hi Hn.
  destruct (Strconv.ParseFloat (Total re)) as [p [e|]]; [discriminate|].
  match goal with
  | |- context [findPoints_rule5 _ _ _ ?t] =>
      destruct (rule5_cases re (Items re) t)
        as [[_ [t5 ->]] | (item & f & err & Hin & Hk & Hpf & _)]
  end.
  - destruct (rule6_cases re t5)
      as [[(y & m & d & Hs & _) _] | [[_ ->] | (day & n & err & Hc & _)]].
    + pose proof (Split_length (PurchaseDate re) "-") as Hl.
      rewrite Hs in Hl. simpl in Hl. congruence.
    + reflexivity.
    + contradiction.
  - specialize (Hi item Hin Hk). rewrite Hpf in Hi. discriminate.
Qed.

Lemma rem_2_is_1 (n : Z) : (Z.rem n 2 =? 1) = Z.odd n && (0 <? n).
Proof.
  destruct (Z.ltb_spec 0 n) as [Hpos|Hneg].
  - rewrite Z.rem_mod_nonneg, Zmod_odd by lia.
    destruct (Z.odd n); reflexivity.
  - rewrite andb_false_r. apply Z.eqb_neq.
    pose proof (Z.rem_nonpos n 2). lia.
Qed.

Lemma Split_parts_no_sep (s : string) (sep : ascii) :
  forall t, In t (Strings.Split s sep) -> countByte sep t = O.
Proof.
  induction s as [|c s IH]; simpl; intros t Hin.
  - destruct Hin as [<-|[]]. reflexivity.
  - destruct (Ascii.eqb c sep) eqn:Hc.
    + destruct Hin as [<-|Hin]; [reflexivity | auto].
    + destruct (Strings.Split s sep) as [|piece pieces].
      * destruct Hin as [<-|[]]. simpl. rewrite Hc. reflexivity.
      * destruct Hin as [<-|Hin].
        { simpl. rewrite Hc. apply IH. left. reflexivity. }
        { apply IH. right. assumption. }
Qed.

Lemma parseDigits_nonneg (p : list Z) : forall n0 n,
  0 <= n0 -> Strconv.parseDigits p n0 = inl n -> 0 <= n.
Proof.
  induction p as [|c p IH]; simpl; intros n0 n Hn0 H.
  - inversion H; subst. assumption.
  - destruct (Strconv.isDigit c) eqn:Hc; [|discriminate].
    assert (H48 : 48 <= c).
    { unfold Strconv.isDigit, Utf8.between in Hc. apply andb_prop in Hc.
      destruct Hc as [Hc _]. apply Z.leb_le in Hc. exact Hc. }
    split_match H; [discriminate|].
    apply (IH (n0 * 10 + (c - 48))); [lia | exact H].
Qed.

(** A string without a minus sign is never a negative integer. *)
Lemma Atoi_nonneg (s : string) (n : Z) :
  countByte "-" s = O -> Strconv.Atoi s = (n, None) -> 0 <= n.
Proof.
  unfold Strconv.Atoi. intros Hc H.
  destruct s as [|c s]; [discriminate|].
  cbn [bytes list_ascii_of_string map] in H.
  fold (bytes s) in H.
  assert (Hminus : (byte_of c =? 45) = false).
  { simpl in Hc. destruct (Ascii.eqb c "-") eqn:Hcm; [discriminate|].
    apply Z.eqb_neq. intros Hb. apply Ascii.eqb_neq in Hcm. apply Hcm.
    unfold byte_of in Hb.
    rewrite <- (ascii_N_embedding c), <- (ascii_N_embedding "-").
    f_equal. apply N2Z.inj. exact Hb. }
  rewrite Hminus in H.
  assert (Hpos : forall digits un,
             match Strconv.parseDigits digits 0 with
             | inl n => Some n
             | inr ErrRange => Some (2 ^ 64 - 1)
             | inr ErrSyntax => None
             end = Some un -> 0 <= un).
  { intros digits un Hd.
    destruct (Strconv.parseDigits digits 0) as [k|[|]] eqn:Hk;
      inversion Hd; subst; [|lia].
    apply (parseDigits_nonneg digits 0 un); [lia | assumption]. }
  destruct (byte_of c =? 43).
  - destruct (bytes s) as [|d ds]; [discriminate|].
    match type of H with
    | context [match ?x with Some _ => _ | None => _ end] =>
        destruct x as [un|] eqn:Hun; [|discriminate]
    end.
    specialize (Hpos _ _ Hun). cbn [negb andb] in H.
    destruct (2 ^ 63 <=? un); [discriminate|]. inversion H; subst. assumption.
  - match type of H with
    | context [match ?x with Some _ => _ | None => _ end] =>
        destruct x as [un|] eqn:Hun; [|discriminate]
    end.
    specialize (Hpos _ _ Hun). cbn [negb andb] in H.
    destruct (2 ^ 63 <=? un); [discriminate|]. inversion H; subst. assumption.
Qed.

(** X5. For a date of three parts whose third part is the integer [n],
    rule 6 adds 6 points exactly when [n] is odd. The remainder [%] of Go
    is -1 for an odd negative number, but the day is never negative: a
    part of the date holds no hyphen, so no minus sign. *)
Theorem rule6_odd_day (re : StorageReceipt) (total : Z) y m d n :
  Strings.Split (PurchaseDate re) "-" = [y; m; d] ->
  Strconv.Atoi d = (n, None) ->
  0 <= n
  /\ findPoints_rule6 re total
     = findPoints_rule7 re (if Z.odd n then GoInt.add total 6 else total).
Proof.
  intros Hs Hd.
  assert (Hn : 0 <= n).
  { apply (Atoi_nonneg d); [|assumption].
    apply (Split_parts_no_sep (PurchaseDate re) "-").
    rewrite Hs. simpl. auto. }
  split; [exact Hn|].
  unfold findPoints_rule6, index. rewrite Hs. simpl.
  rewrite Hd. unfold GoInt.rem. rewrite rem_2_is_1.
  destruct (Z.ltb_spec 0 n) as [Hpos|Hzero].
  - rewrite andb_true_r. reflexivity.
  - assert (n = 0) by lia. subst n. reflexivity.
Qed.

Lemma rule5_same_payload (p : PostReceiptJSON) (a b : UUID) (items : list Item) :
  forall total,
  findPoints_rule5 intUndef {| Payload := p; Id := a |} items total
  = findPoints_rule5 intUndef {| Payload := p; Id := b |} items total.
Proof.
  induction items as [|item items IH]; intros total; cbn [findPoints_rule5].
  - reflexivity.
  - destruct (GoInt.rem (len (Strings.TrimSpace (ShortDescription item))) 3 =? 0);
      [|apply IH].
    destruct (Strconv.ParseFloat (Price item)) as [f [e|]]; [reflexivity|].
    apply IH.
Qed.

(** X6. The outcome of [findPoints] does not depend on the id of the
    stored receipt: two stored receipts with the same payload end the same
    way, with the same score or error. *)
Theorem findPoints_same_payload (p : PostReceiptJSON) (a b : UUID) :
  findPoints Letter Digit intUndef {| Payload := p; Id := a |}
  = findPoints Letter Digit intUndef {| Payload := p; Id := b |}.
Proof.
  unfold findPoints, findPoints_rule4. cbn [Payload].
  destruct (Strconv.ParseFloat (Total p)) as [f [e|]]; [reflexivity|].
  apply rule5_same_payload.
Qed.

End Endings.

(** ** Rules 1 and 4 *)

Lemma bytes_nonneg (s : string) : Forall (fun b => 0 <= b) (bytes s).
Proof.
  unfold bytes. apply Forall_forall. intros b Hb.
  apply in_map_iff in Hb. destruct Hb as [c [<- _]].
  unfold byte_of. apply N2Z.is_nonneg.
Qed.

Lemma runesN_ascii (p : list Z) : forall fuel,
  Forall (fun b => 0 <= b < 128) p -> (List.length p <= fuel)%nat ->
  Utf8.runesN fuel p = p.
Proof.
  induction p as [|b p IH]; intros fuel Hp Hf.
  - destruct fuel; reflexivity.
  - destruct fuel as [|fuel]; [simpl in Hf; lia|].
    inversion Hp as [|? ? Hb Hp']; subst.
    cbn [Utf8.runesN Utf8.DecodeRune].
    assert (Hlt : (b <? Utf8.RuneSelf) = true)
      by (apply Z.ltb_lt; unfold Utf8.RuneSelf; lia).
    rewrite Hlt. cbn [skipn]. f_equal. apply IH; [assumption|].
    simpl in Hf. lia.
Qed.

Section Counting.

Variables (Letter Digit : Z -> bool) (intUndef : Float64.float64 -> Z).

Lemma alnum_ascii (c : Z) :
  0 <= c < 128 ->
  Unicode.IsLetter Letter c || Unicode.IsDigit Digit c = isAsciiAlnum c.
Proof.
  intros Hc.
  unfold Unicode.IsLetter, Unicode.IsDigit, Unicode.latin1Letter, isAsciiAlnum,
    Unicode.MaxLatin1, Utf8.between.
  assert (H255 : (c <=? 255) = true) by (apply Z.leb_le; lia).
  assert (H170 : (c =? 170) = false) by (apply Z.eqb_neq; lia).
  assert (H181 : (c =? 181) = false) by (apply Z.eqb_neq; lia).
  assert (H186 : (c =? 186) = false) by (apply Z.eqb_neq; lia).
  assert (H192 : (192 <=? c) = false) by (apply Z.leb_gt; lia).
  assert (H216 : (216 <=? c) = false) by (apply Z.leb_gt; lia).
  assert (H248 : (248 <=? c) = false) by (apply Z.leb_gt; lia).
  rewrite H255, H170, H181, H186, H192, H216, H248. simpl.
  rewrite !orb_false_r.
  destruct ((48 <=? c) && (c <=? 57)), ((65 <=? c) && (c <=? 90)),
    ((97 <=? c) && (c <=? 122)); reflexivity.
Qed.

Lemma countAlnum_ascii (rs : list Z) : forall k,
  Forall (fun b => 0 <= b < 128) rs ->
  countAlnum Letter Digit rs (GoInt.wrap k)
  = GoInt.wrap (k + Z.of_nat (List.length (filter isAsciiAlnum rs))).
Proof.
  induction rs as [|c rs IH]; intros k Hrs; simpl.
  - f_equal. lia.
  - inversion Hrs as [|? ? Hc Hrs']; subst.
    rewrite (alnum_ascii c Hc).
    destruct (isAsciiAlnum c).
    + unfold GoInt.add. rewrite wrap_wrap_add, IH by assumption.
      f_equal. simpl List.length. lia.
    + rewrite IH by assumption. reflexivity.
Qed.

(** X7. For a retailer name made of ASCII bytes, the loop of rule 1 counts
    the bytes that are ASCII letters or digits, whatever the Unicode tables
    hold above Latin-1. *)
Theorem countAlnum_ascii_retailer (retailer : string) :
  Forall (fun b => b < 128) (bytes retailer) ->
  countAlnum Letter Digit (Utf8.runes retailer) 0
  = GoInt.wrap (Z.of_nat (List.length (filter isAsciiAlnum (bytes retailer)))).
Proof.
  intros Hascii.
  assert (Hb : Forall (fun b => 0 <= b < 128) (bytes retailer)).
  { pose proof (bytes_nonneg retailer) as Hn.
    rewrite Forall_forall in *. intros b Hin. split; auto. }
  unfold Utf8.runes. rewrite runesN_ascii by (auto; lia).
  change 0 with (GoInt.wrap 0) at 1.
  rewrite countAlnum_ascii by assumption. reflexivity.
Qed.

End Counting.

(** *** Values that round to themselves *)

(** The digits of [a * 2^k]. *)
Lemma digits_shiftl (a : positive) (k : nat) :
  Zpos (digits2_pos (Pos.shiftl_nat a k)) = Zpos (digits2_pos a) + Z.of_nat k.
Proof.
  induction k as [|k IH].
  - simpl. lia.
  - change (Pos.shiftl_nat a (S k)) with (xO (Pos.shiftl_nat a k)).
    cbn [digits2_pos]. rewrite Pos2Z.inj_succ, IH. lia.
Qed.

Lemma shiftl_nat_value (a : positive) (k : nat) :
  Zpos (Pos.shiftl_nat a k) = Zpos a * 2 ^ Z.of_nat k.
Proof.
  induction k as [|k IH].
  - simpl. lia.
  - change (Pos.shiftl_nat a (S k)) with (xO (Pos.shiftl_nat a k)).
    rewrite Pos2Z.inj_xO, IH, Nat2Z.inj_succ, Z.pow_succ_r by lia. ring.
Qed.

Lemma iter_xO (a : positive) (d : positive) :
  Pos.iter xO a d = Pos.shiftl_nat a (Pos.to_nat d).
Proof.
  rewrite Pos2Nat.inj_iter. unfold Pos.shiftl_nat.
  induction (Pos.to_nat d); simpl; congruence.
Qed.

Lemma iter_pos_nat {A : Type} (f : A -> A) (p : positive) : forall x,
  iter_pos f p x = Nat.iter (Pos.to_nat p) f x.
Proof.
  induction p as [p IH|p IH|]; intros x; cbn [iter_pos].
  - rewrite !IH, Pos2Nat.inj_xI. 
    replace (S (2 * Pos.to_nat p))%nat with (Pos.to_nat p + (Pos.to_nat p + 1))%nat by lia.
    rewrite !Nat.iter_add. reflexivity.
  - rewrite !IH, Pos2Nat.inj_xO.
    replace (2 * Pos.to_nat p)%nat with (Pos.to_nat p + Pos.to_nat p)%nat by lia.
    rewrite Nat.iter_add. reflexivity.
  - reflexivity.
Qed.

Lemma shr_zeros (a : positive) (k : nat) :
  Nat.iter k shr_1 (Build_shr_record (Zpos (Pos.shiftl_nat a k)) false false)
  = Build_shr_record (Zpos a) false false.
Proof.
  induction k as [|k IH].
  - reflexivity.
  - rewrite Nat.iter_succ_r.
    change (Pos.shiftl_nat a (S k)) with (xO (Pos.shiftl_nat a k)).
    cbn [shr_1 orb]. exact IH.
Qed.

(** A mantissa of 53 digits followed by [t] zeros rounds to itself. *)
Lemma binary_round_aux_exact (s : bool) (a : positive) (t : nat) (e : Z) :
  Zpos (digits2_pos a) = 53 ->
  -1074 <= e + Z.of_nat t <= 971 ->
  binary_round_aux Float64.prec Float64.emax s (Zpos (Pos.shiftl_nat a t)) e loc_Exact
  = S754_finite s a (e + Z.of_nat t).
Proof.
  intros Hd He.
  unfold binary_round_aux.
  assert (H1 : shr_fexp Float64.prec Float64.emax (Zpos (Pos.shiftl_nat a t)) e loc_Exact
               = (Build_shr_record (Zpos a) false false, e + Z.of_nat t)).
  { unfold shr_fexp, shr, fexp, emin, Float64.prec, Float64.emax. cbn [Zdigits2 shr_record_of_loc].
    rewrite digits_shiftl, Hd.
    replace (Z.max (53 + Z.of_nat t + e - 53) (3 - 1024 - 53) - e) with (Z.of_nat t) by lia.
    destruct t as [|t].
    - simpl. f_equal. lia.
    - change (Z.of_nat (S t)) with (Zpos (Pos.of_succ_nat t)).
      cbv iota beta. rewrite iter_pos_nat, SuccNat2Pos.id_succ, shr_zeros.
      reflexivity. }
  rewrite H1. cbn [shr_m loc_of_shr_record round_nearest_even].
  assert (H2 : shr_fexp Float64.prec Float64.emax (Zpos a) (e + Z.of_nat t) loc_Exact
               = (Build_shr_record (Zpos a) false false, e + Z.of_nat t)).
  { unfold shr_fexp, shr, fexp, emin, Float64.prec, Float64.emax. cbn [Zdigits2 shr_record_of_loc].
    rewrite Hd.
    replace (Z.max (53 + (e + Z.of_nat t) - 53) (3 - 1024 - 53) - (e + Z.of_nat t)) with 0 by lia.
    reflexivity. }
  rewrite H2. cbn [shr_m].
  unfold Float64.prec, Float64.emax.
  replace (e + Z.of_nat t <=? 1024 - 53) with true by (symmetry; apply Z.leb_le; lia).
  reflexivity.
Qed.

Lemma binary_round_zeros (s : bool) (a : positive) (t : nat) (e : Z) :
  Zpos (digits2_pos a) = 53 ->
  -1074 <= e + Z.of_nat t <= 971 ->
  binary_round Float64.prec Float64.emax s (Pos.shiftl_nat a t) e
  = S754_finite s a (e + Z.of_nat t).
Proof.
  intros Hd He. unfold binary_round, shl_align, fexp, emin, Float64.prec, Float64.emax.
  rewrite digits_shiftl, Hd.
  replace (Z.max (53 + Z.of_nat t + e - 53) (3 - 1024 - 53) - e) with (Z.of_nat t) by lia.
  destruct t as [|t]; cbn [Z.of_nat]; apply binary_round_aux_exact; assumption.
Qed.

Lemma binary_round_shl (s : bool) (m : positive) (e : Z) :
  Zpos (digits2_pos m) <= 53 ->
  -1074 <= e + Zpos (digits2_pos m) - 53 <= 971 ->
  binary_round Float64.prec Float64.emax s m e
  = S754_finite s (Pos.shiftl_nat m (Z.to_nat (53 - Zpos (digits2_pos m))))
      (e + Zpos (digits2_pos m) - 53).
Proof.
  intros Hd He. unfold binary_round, shl_align, fexp, emin, Float64.prec, Float64.emax.
  replace (Z.max (Zpos (digits2_pos m) + e - 53) (3 - 1024 - 53) - e)
    with (Zpos (digits2_pos m) - 53) by lia.
  replace (Z.max (Zpos (digits2_pos m) + e - 53) (3 - 1024 - 53))
    with (e + Zpos (digits2_pos m) - 53) by lia.
  destruct (Zpos (digits2_pos m) - 53) as [|p|p] eqn:Hp; try lia.
  - replace (53 - Zpos (digits2_pos m)) with 0 by lia. 
    change (Z.to_nat 0) with O. cbn [Pos.shiftl_nat nat_rect].
    pose proof (binary_round_aux_exact s m 0 e) as H. cbn [Pos.shiftl_nat nat_rect Z.of_nat] in H.
    etransitivity; [apply H; lia|]. f_equal. lia.
  - rewrite iter_xO.
    replace (53 - Zpos (digits2_pos m)) with (Zpos p) by lia.
    rewrite Z2Nat.inj_pos.
    pose proof (binary_round_aux_exact s (Pos.shiftl_nat m (Pos.to_nat p)) 0
                  (e + Zpos (digits2_pos m) - 53)) as H.
    cbn [Pos.shiftl_nat nat_rect Z.of_nat] in H.
    etransitivity; [apply H|f_equal; lia]; [|lia].
    rewrite digits_shiftl, positive_nat_Z. lia.
Qed.

Lemma c_2_bits : Float64.c_2 = S754_finite false 4503599627370496 (-51).
Proof. vm_compute. reflexivity. Qed.

Lemma c_5_bits : Float64.c_5 = S754_finite false 5629499534213120 (-50).
Proof. vm_compute. reflexivity. Qed.

(** Halving a normalised value is exact. *)
Lemma div_c_2 (M : positive) (E : Z) :
  Zpos (digits2_pos M) = 53 ->
  -1072 <= E <= 971 ->
  Float64.div (S754_finite false M E) Float64.c_2 = S754_finite false M (E - 1).
Proof.
  intros Hd He. rewrite c_2_bits.
  unfold Float64.div, SFdiv, SFdiv_core_binary.
  cbn [Zdigits2 xorb]. rewrite Hd.
  change (Zpos (digits2_pos 4503599627370496)) with 53.
  unfold fexp, emin, Float64.prec, Float64.emax.
  replace (Z.min (Z.max (53 + E - (53 + -51) - 53) (3 - 1024 - 53)) (E - -51))
    with (E - 2) by lia.
  replace (E - -51 - (E - 2)) with 53 by lia.
  cbv iota beta.
  assert (Hq : Z.div_eucl (Z.shiftl (Zpos M) 53) 4503599627370496
               = (Zpos (xO M), 0)).
  { rewrite Z.shiftl_mul_pow2 by lia.
    pose proof (Z.div_eucl_eq (Zpos M * 2 ^ 53) 4503599627370496) as Heq.
    pose proof (Z.mod_pos_bound (Zpos M * 2 ^ 53) 4503599627370496) as Hb.
    unfold Z.modulo in Hb.
    destruct (Z.div_eucl (Zpos M * 2 ^ 53) 4503599627370496) as [q r].
    assert (Hr : r = 0 /\ q = Zpos (xO M)).
    { change (2 ^ 53) with (2 * 4503599627370496) in Heq.
      rewrite Pos2Z.inj_xO. lia. }
    destruct Hr as [-> ->]. reflexivity. }
  rewrite Hq.
  change (new_location 4503599627370496 0) with loc_Exact.
  pose proof (binary_round_aux_exact false M 1 (E - 2) Hd) as H.
  change (Pos.shiftl_nat M 1) with (xO M) in H.
  etransitivity; [apply H; simpl; lia|]. f_equal. simpl. lia.
Qed.

Lemma digits2_pos_bounds (p : positive) :
  2 ^ (Zpos (digits2_pos p) - 1) <= Zpos p < 2 ^ Zpos (digits2_pos p).
Proof.
  induction p as [p IH|p IH|]; cbn [digits2_pos].
  - rewrite Pos2Z.inj_succ. change (Zpos p~1) with (2 * Zpos p + 1).
    replace (Z.succ (Zpos (digits2_pos p)) - 1) with (Z.succ (Zpos (digits2_pos p) - 1)) by lia.
    rewrite !Z.pow_succ_r by lia. lia.
  - rewrite Pos2Z.inj_succ. change (Zpos p~0) with (2 * Zpos p).
    replace (Z.succ (Zpos (digits2_pos p)) - 1) with (Z.succ (Zpos (digits2_pos p) - 1)) by lia.
    rewrite !Z.pow_succ_r by lia. lia.
  - simpl. lia.
Qed.

Lemma digits2_pos_le (p : positive) (k : Z) :
  0 <= k -> Zpos p < 2 ^ k -> Zpos (digits2_pos p) <= k.
Proof.
  intros Hk Hp. pose proof (digits2_pos_bounds p) as [Hlo _].
  destruct (Z_le_gt_dec (Zpos (digits2_pos p)) k) as [H|H]; [assumption|].
  assert (2 ^ k <= 2 ^ (Zpos (digits2_pos p) - 1)) by (apply Z.pow_le_mono_r; lia).
  lia.
Qed.

Lemma digits2_pos_ge (p : positive) (k : Z) :
  0 <= k -> 2 ^ k <= Zpos p -> k + 1 <= Zpos (digits2_pos p).
Proof.
  intros Hk Hp. pose proof (digits2_pos_bounds p) as [_ Hhi].
  destruct (Z_le_gt_dec (k + 1) (Zpos (digits2_pos p))) as [H|H]; [assumption|].
  assert (2 ^ Zpos (digits2_pos p) <= 2 ^ k) by (apply Z.pow_le_mono_r; lia).
  lia.
Qed.

Section Pairs.

Variables (Letter Digit : Z -> bool) (intUndef : Float64.float64 -> Z).

(** For fewer than [2^50] items the conversions of rule 4 lose nothing. *)
Lemma pairs_exact (n : Z) :
  0 <= n < 2 ^ 50 ->
  Float64.to_int intUndef
    (Float64.mul
       (Float64.Floor (Float64.div (Float64.of_int n) Float64.c_2))
       Float64.c_5)
  = 5 * (n / 2).
Proof.
  intros Hn. destruct n as [|n|n]; [vm_compute; reflexivity | | lia].
  pose proof (digits2_pos_le n 50) as Hd50.
  pose proof (digits2_pos_bounds n) as Hdn.
  set (d := Zpos (digits2_pos n)) in *.
  assert (Hd : 1 <= d <= 50) by (subst d; lia).
  unfold Float64.of_int, Float64.round_scaled, binary_normalize.
  rewrite binary_round_shl by (fold d; lia). fold d.
  set (M := Pos.shiftl_nat n (Z.to_nat (53 - d))).
  assert (HM : Zpos (digits2_pos M) = 53)
    by (subst M; rewrite digits_shiftl; fold d; lia).
  assert (HMv : Zpos M = Zpos n * 2 ^ (53 - d))
    by (subst M; rewrite shiftl_nat_value; f_equal; f_equal; lia).
  rewrite div_c_2 by (auto; lia).
  unfold Float64.Floor.
  replace (0 <=? 0 + d - 53 - 1) with false by (symmetry; apply Z.leb_gt; lia).
  assert (Hfl : Float64.floorZ false M (0 + d - 53 - 1) = Zpos n / 2).
  { unfold Float64.floorZ.
    replace (0 <=? 0 + d - 53 - 1) with false by (symmetry; apply Z.leb_gt; lia).
    cbn [cond_Zopp]. rewrite Z.shiftr_div_pow2 by lia. rewrite HMv.
    replace (- (0 + d - 53 - 1)) with (1 + (53 - d)) by lia.
    rewrite Z.pow_add_r by lia. change (2 ^ 1) with 2.
    rewrite Z.div_mul_cancel_r by lia. reflexivity. }
  rewrite Hfl.
  destruct (Zpos n / 2) as [|k|k] eqn:Hk.
  - vm_compute. reflexivity.
  - cbn [Float64.exact_int]. rewrite c_5_bits. cbn [Float64.mul xorb].
    assert (Hk50 : Zpos k < 2 ^ 49).
    { assert (Zpos n / 2 < 2 ^ 49) by (apply Z.div_lt_upper_bound; lia). lia. }
    set (d5 := Zpos (digits2_pos (k * 5))).
    assert (Hd5 : 3 <= d5 <= 53).
    { subst d5. split.
      - apply (digits2_pos_ge (k * 5) 2); lia.
      - apply digits2_pos_le; lia. }
    set (a := Pos.shiftl_nat (k * 5) (Z.to_nat (53 - d5))).
    assert (Ha : Zpos (digits2_pos a) = 53)
      by (subst a; rewrite digits_shiftl; fold d5; lia).
    assert (Hav : Zpos a = Zpos (k * 5) * 2 ^ (53 - d5))
      by (subst a; rewrite shiftl_nat_value; f_equal; f_equal; lia).
    assert (HP : (k * 5629499534213120)%positive
                 = Pos.shiftl_nat a (Z.to_nat (d5 - 3))).
    { apply Pos2Z.inj. rewrite shiftl_nat_value, Hav, Z2Nat.id by lia.
      rewrite <- Z.mul_assoc, <- Z.pow_add_r by lia.
      replace (53 - d5 + (d5 - 3)) with 50 by lia.
      rewrite !Pos2Z.inj_mul. change (Zpos 5629499534213120) with (5 * 2 ^ 50).
      ring. }
    rewrite HP, binary_round_zeros by (auto; rewrite Z2Nat.id; lia).
    rewrite Z2Nat.id by lia.
    unfold Float64.to_int. cbn [cond_Zopp].
    assert (Hv : (if 0 <=? 0 + -50 + (d5 - 3)
                  then Z.shiftl (Zpos a) (0 + -50 + (d5 - 3))
                  else Z.shiftr (Zpos a) (- (0 + -50 + (d5 - 3))))
                 = 5 * Zpos k).
    { destruct (Z.leb_spec 0 (0 + -50 + (d5 - 3))) as [H|H].
      - replace (0 + -50 + (d5 - 3)) with 0 by lia. rewrite Z.shiftl_0_r, Hav.
        replace (53 - d5) with 0 by lia. rewrite Pos2Z.inj_mul. lia.
      - rewrite Z.shiftr_div_pow2 by lia. rewrite Hav.
        replace (- (0 + -50 + (d5 - 3))) with (53 - d5) by lia.
        rewrite Z.div_mul by (apply Z.pow_nonzero; lia).
        rewrite Pos2Z.inj_mul. lia. }
    rewrite Hv.
    replace (GoInt.inRange (5 * Zpos k)) with true; [reflexivity|].
    symmetry. unfold GoInt.inRange, GoInt.minInt, GoInt.maxInt.
    apply andb_true_intro. split; apply Z.leb_le; lia.
  - pose proof (Z.div_pos (Zpos n) 2). lia.
Qed.

(** X8. For a receipt of fewer than [2^50] items, rule 4 adds 5 points
    for every two items, [5 * (n / 2)] in integers: the conversion to
    [float64], the division, the floor, the product and the conversion
    back lose nothing. *)
Theorem findPoints_rule4_pairs (re : StorageReceipt) (total : Z) :
  Z.of_nat (List.length (Items re)) < 2 ^ 50 ->
  findPoints_rule4 intUndef re total
  = findPoints_rule5 intUndef re (Items re)
      (GoInt.add total (pairPoints (List.length (Items re)))).
Proof.
  intros Hn. unfold findPoints_rule4, pairPoints.
  rewrite pairs_exact by lia. reflexivity.
Qed.

End Pairs.

(** ** The string form of an id *)

Lemma hexValue_hexDigit (d : Z) : 0 <= d < 16 -> hexValue (hexDigit d) = d.
Proof.
  intros Hd.
  assert (H : d = 0 \/ d = 1 \/ d = 2 \/ d = 3 \/ d = 4 \/ d = 5 \/ d = 6
              \/ d = 7 \/ d = 8 \/ d = 9 \/ d = 10 \/ d = 11 \/ d = 12
              \/ d = 13 \/ d = 14 \/ d = 15) by lia.
  repeat (destruct H as [->|H]; [reflexivity|]). subst d. reflexivity.
Qed.

Lemma hex_byte_inj (a b : Z) :
  0 <= a < 256 -> 0 <= b < 256 ->
  hexDigit (Z.shiftr a 4) = hexDigit (Z.shiftr b 4) ->
  hexDigit (Z.land a 15) = hexDigit (Z.land b 15) ->
  a = b.
Proof.
  intros Ha Hb Hhi Hlo.
  apply (f_equal hexValue) in Hhi. apply (f_equal hexValue) in Hlo.
  change 15 with (Z.ones 4) in Hlo.
  rewrite !Z.land_ones in Hlo by lia.
  rewrite !Z.shiftr_div_pow2 in Hhi by lia.
  change (2 ^ 4) with 16 in *.
  rewrite !hexValue_hexDigit in Hhi, Hlo
    by first [ apply Z.mod_pos_bound; lia
             | split; [apply Z.div_pos; lia | apply Z.div_lt_upper_bound; lia] ].
  rewrite (Z.div_mod a 16), (Z.div_mod b 16) by lia. congruence.
Qed.

Lemma hexEncode_cons (b : Z) (p : list Z) :
  hexEncode (b :: p)
  = String (hexDigit (Z.shiftr b 4))
      (String (hexDigit (Z.land b 15)) (hexEncode p)).
Proof. reflexivity. Qed.

(** Two ids with the same string form are the same 16 bytes. *)
Lemma UUID_String_inj (u v : UUID) :
  wfUUID u -> wfUUID v -> UUID_String u = UUID_String v -> u = v.
Proof.
  intros [Hlu Hfu] [Hlv Hfv] H.
  do 17 (destruct u as [|? u]; try discriminate Hlu).
  do 17 (destruct v as [|? v]; try discriminate Hlv).
  unfold UUID_String in H. cbn [firstn skipn] in H.
  rewrite !hexEncode_cons in H.
  change (hexEncode []) with EmptyString in H.
  cbn [String.append] in H.
  repeat match goal with
         | F : Forall _ (_ :: _) |- _ => inversion F; clear F; subst
         end.
  injection H as ?. 
  repeat f_equal; apply hex_byte_inj; assumption.
Qed.

(** ** Lookups and submissions *)

Lemma find_app_found {A : Type} (f : A -> bool) (l l' : list A) (a : A) :
  find f l = Some a -> find f (l ++ l') = Some a.
Proof.
  induction l as [|x l IH]; simpl; [discriminate|].
  destruct (f x); auto.
Qed.

Lemma find_app_none {A : Type} (f : A -> bool) (l l' : list A) :
  find f l = None -> find f (l ++ l') = find f l'.
Proof.
  induction l as [|x l IH]; simpl; [reflexivity|].
  destruct (f x); [discriminate | auto].
Qed.

Lemma append_empty_r (s : string) : (s ++ "")%string = s.
Proof. induction s as [|c s IH]; simpl; [reflexivity | rewrite IH; reflexivity]. Qed.

Section LookupProperties.

Variables (Letter Digit : Z -> bool) (intUndef : Float64.float64 -> Z).

(** The loop answers for the first receipt whose id matches, as if it were
    alone in the store, and as for an empty store when there is none. *)
Lemma lookupPoints_find (idFromURL : string) (written : option error) :
  forall receipts,
  lookupPoints Letter Digit intUndef receipts idFromURL written
  = match find (fun r => String.eqb idFromURL (UUID_String (Id r))) receipts with
    | Some r => lookupPoints Letter Digit intUndef [r] idFromURL written
    | None => lookupPoints Letter Digit intUndef [] idFromURL written
    end.
Proof.
  induction receipts as [|r receipts IH]; [reflexivity|].
  cbn [find]. destruct (String.eqb idFromURL (UUID_String (Id r))) eqn:Hr.
  - cbn [lookupPoints]. rewrite Hr. reflexivity.
  - cbn [lookupPoints]. rewrite Hr. exact IH.
Qed.

(** X9. A lookup of an id that no stored receipt has is answered with the
    status 404 and the body [Id not found]: never with a score, and
    [findPoints] is not run, so the handler cannot panic; the store is left
    as it was. *)
Theorem handleGetReceiptPoints_not_found
  (rh : ReceiptHandler) (idFromURL : string) (written : option error) :
  FindByID rh idFromURL = None ->
  exists out calls,
    handleGetReceiptPoints Letter Digit intUndef rh idFromURL written
    = Return out (rh, calls)
    /\ calls = [WriteHeader StatusNotFound; Write "Id not found"]
    /\ statusOf calls = Some 404
    /\ bodyOf calls = "Id not found"
    /\ forall l, In (Println l) out -> False.
Proof.
  unfold FindByID, handleGetReceiptPoints. intros Hfind.
  rewrite lookupPoints_find, Hfind. cbn [lookupPoints].
  destruct written; do 2 eexists; (split; [reflexivity|]);
    repeat split; simpl; intros l Hl; intuition discriminate.
Qed.

(** X10. A lookup of an id that is found, for a receipt that [findPoints]
    scores, is answered with the JSON body of that score and no call of
    [WriteHeader], so with the status 200; what [findPoints] printed is all
    that is printed, but for the report of a failed write. *)
Theorem handleGetReceiptPoints_found
  (rh : ReceiptHandler) (idFromURL : string) (written : option error)
  (receipt : StorageReceipt) out pts :
  FindByID rh idFromURL = Some receipt ->
  findPoints Letter Digit intUndef receipt = Return out (pts, None) ->
  exists out' calls,
    handleGetReceiptPoints Letter Digit intUndef rh idFromURL written
    = Return out' (rh, calls)
    /\ calls = [Write (fst (marshalPoints pts))]
    /\ statusOf calls = Some StatusOK
    /\ bodyOf calls
       = ("{" ++ quote ++ "points" ++ quote ++ ":" ++ itoa pts ++ "}")%string
    /\ out' = (out ++ match written with
                      | Some err =>
                          [Printf ("writing to response: %+v" ++ newline) [PErr err]]
                      | None => []
                      end)%list.
Proof.
  unfold FindByID, handleGetReceiptPoints. intros Hfind Hpoints.
  assert (Hid : String.eqb idFromURL (UUID_String (Id receipt)) = true).
  { apply find_some in Hfind. apply Hfind. }
  rewrite lookupPoints_find, Hfind. cbn [lookupPoints].
  rewrite Hid, Hpoints. cbn [marshalPoints].
  destruct written; do 2 eexists; (split; [reflexivity|]);
    (split; [reflexivity|]); (split; [reflexivity|]);
    (split; [cbn [bodyOf fst]; apply append_empty_r|]);
    rewrite ?app_nil_r; reflexivity.
Qed.

(** X11. The lookup handler panics exactly when the id is found and
    [findPoints] panics on the receipt found; nothing is written to the
    response then. *)
Theorem handleGetReceiptPoints_panics_iff
  (rh : ReceiptHandler) (idFromURL : string) (written : option error) out p :
  handleGetReceiptPoints Letter Digit intUndef rh idFromURL written = Panic out p
  <-> exists receipt,
        FindByID rh idFromURL = Some receipt
        /\ findPoints Letter Digit intUndef receipt = Panic out p.
Proof.
  unfold FindByID, handleGetReceiptPoints. rewrite lookupPoints_find.
  destruct (find (fun r => String.eqb idFromURL (UUID_String (Id r)))
              (Receipts rh)) as [receipt|] eqn:Hfind.
  - assert (Hid : String.eqb idFromURL (UUID_String (Id receipt)) = true).
    { apply find_some in Hfind. apply Hfind. }
    cbn [lookupPoints]. rewrite Hid.
    destruct (findPoints Letter Digit intUndef receipt)
      as [o [pts err]|o pv] eqn:Hp.
    + split.
      * cbn [marshalPoints]. destruct err, written; discriminate.
      * intros [r [Hr Hpanic]]. inversion Hr; subst r.
        rewrite Hp in Hpanic. discriminate.
    + split.
      * intros H. inversion H; subst. eauto.
      * intros [r [Hr Hpanic]]. inversion Hr; subst r.
        rewrite Hp in Hpanic. inversion Hpanic. reflexivity.
  - cbn [lookupPoints]. split.
    + destruct written; discriminate.
    + intros [r [Hr _]]. discriminate.
Qed.

(** X12. The submission handler never panics and ends in one of three
    ways. A body that does not decode: status 400, body [invalid receipt],
    store unchanged. A failed id generation: nothing written, store
    unchanged. Otherwise the decoded receipt is appended to the store under
    the new id and the JSON body of that id is written without
    [WriteHeader], whether the write succeeds or not. *)
Theorem handleProcessReceipts_response (rh : ReceiptHandler) (env : postEnv) :
  exists out rh' calls,
    handleProcessReceipts rh env = Return out (rh', calls)
    /\ ((snd (decoded env) <> None
         /\ rh' = rh
         /\ calls = [WriteHeader StatusBadRequest; Write "invalid receipt"])
        \/ (snd (decoded env) = None /\ snd (newV7 env) <> None
            /\ rh' = rh /\ calls = [])
        \/ (exists p u,
              decoded env = (p, None) /\ newV7 env = (u, None)
              /\ Receipts rh' = (Receipts rh ++ [ {| Payload := p; Id := u |} ])%list
              /\ calls = [Write ("{" ++ quote ++ "id" ++ quote ++ ":" ++ quote
                                 ++ UUID_String u ++ quote ++ "}")]
              /\ statusOf calls = Some StatusOK)).
Proof.
  unfold handleProcessReceipts.
  destruct (decoded env) as [p [e|]].
  - destruct (postWritten env); do 3 eexists; (split; [reflexivity|]);
      left; repeat split; discriminate.
  - destruct (newV7 env) as [u [e|]].
    + do 3 eexists. split; [reflexivity|].
      right; left. repeat split; discriminate.
    + cbn [marshalId].
      destruct (postWritten env); do 3 eexists; (split; [reflexivity|]);
        right; right; exists p, u; repeat split.
Qed.

(** X13. After a submission that is decoded and gets an id whose string
    form no stored receipt has, the lookup of that string finds the receipt
    submitted, under that id. *)
Theorem submitted_receipt_is_found
  (rh : ReceiptHandler) (p : PostReceiptJSON) (u : UUID)
  (written : option error) :
  (forall r, In r (Receipts rh) -> UUID_String (Id r) <> UUID_String u) ->
  FindByID (serve Letter Digit intUndef rh (submission p u written))
    (UUID_String u)
  = Some {| Payload := p; Id := u |}.
Proof.
  intros Hfresh. unfold FindByID.
  rewrite (serve_Receipts Letter Digit intUndef rh (submission p u written)).
  cbn [submission stored generated decoded newV7 fst].
  rewrite find_app_none.
  - cbn [find Id]. rewrite String.eqb_refl. reflexivity.
  - destruct (find (fun receipt => String.eqb (UUID_String u)
                                     (UUID_String (Id receipt)))
                (Receipts rh)) as [r|] eqn:Hf; [|reflexivity].
    apply find_some in Hf. destruct Hf as [Hin Heq].
    apply String.eqb_eq in Heq. elim (Hfresh r Hin). congruence.
Qed.

(** X14. A receipt that a lookup finds is found by the same lookup after
    any further request: later submissions never hide it. *)
Theorem stored_receipt_stays_found
  (rh : ReceiptHandler) (idFromURL : string) (receipt : StorageReceipt)
  (rq : request) :
  FindByID rh idFromURL = Some receipt ->
  FindByID (serve Letter Digit intUndef rh rq) idFromURL = Some receipt.
Proof.
  unfold FindByID. intros Hfind.
  rewrite (serve_Receipts Letter Digit intUndef rh rq).
  apply find_app_found. exact Hfind.
Qed.

Lemma find_unique (receipts : list StorageReceipt) (r : StorageReceipt) :
  NoDup (map Id receipts) ->
  (forall r', In r' receipts -> wfUUID (Id r')) ->
  In r receipts ->
  find (fun r' => String.eqb (UUID_String (Id r)) (UUID_String (Id r'))) receipts
  = Some r.
Proof.
  induction receipts as [|x receipts IH]; intros Hnd Hwf Hin; [destruct Hin|].
  cbn [find]. inversion Hnd as [|? ? Hx Hnd']; subst.
  destruct (String.eqb (UUID_String (Id r)) (UUID_String (Id x))) eqn:Heq.
  - apply String.eqb_eq in Heq.
    apply UUID_String_inj in Heq; [|apply Hwf; assumption | apply Hwf; left; reflexivity].
    destruct Hin as [->|Hin]; [reflexivity|].
    elim Hx. rewrite <- Heq. apply in_map. assumption.
  - destruct Hin as [->|Hin].
    + rewrite String.eqb_refl in Heq. discriminate.
    + apply IH; auto. intros r' Hr'. apply Hwf. right. assumption.
Qed.

(** X15. In a store a server can reach with fresh identifiers, all of 16
    bytes, every stored receipt is the one the lookup of its own id finds:
    no receipt hides another, even one with the same payload. *)
Theorem reachable_store_finds_each (rh : ReceiptHandler) :
  reachable Letter Digit intUndef rh ->
  (forall r, In r (Receipts rh) -> wfUUID (Id r)) ->
  forall r, In r (Receipts rh) ->
    FindByID rh (UUID_String (Id r)) = Some r.
Proof.
  intros Hreach Hwf r Hin. unfold FindByID.
  apply find_unique; auto.
  apply (reachable_NoDup Letter Digit intUndef). assumption.
Qed.

End LookupProperties.

(** ** The further properties at concrete receipts *)

Lemma testReceipt2_itemsOK : itemsOK (Items (testReceipt2 (sampleId 2))).
Proof.
  intros item Hin _. simpl in Hin.
  repeat (destruct Hin as [<-|Hin]; [vm_compute; reflexivity|]).
  destruct Hin.
Qed.

Lemma testReceipt1_itemsOK : itemsOK (Items (testReceipt1 (sampleId 1))).
Proof.
  intros item Hin _. simpl in Hin.
  repeat (destruct Hin as [<-|Hin]; [vm_compute; reflexivity|]).
  destruct Hin.
Qed.

(** X1 at the second receipt of the test. *)
Lemma findPoints_scores_iff_witness :
  (exists out s, run (testReceipt2 (sampleId 2)) = Return out (s, None))
  /\ totalOK (testReceipt2 (sampleId 2))
  /\ itemsOK (Items (testReceipt2 (sampleId 2)))
  /\ dateOK (testReceipt2 (sampleId 2))
  /\ timeOK (testReceipt2 (sampleId 2)).
Proof.
  assert (H : exists out s,
             run (testReceipt2 (sampleId 2)) = Return out (s, None))
    by (exists [], 109; vm_compute; reflexivity).
  split; [exact H|].
  exact (proj1 (findPoints_scores_iff noEntries noEntries integerIndefinite
                  (testReceipt2 (sampleId 2))) H).
Defined.

(** X2 at the second receipt of the test with the time [1400]. *)
Lemma findPoints_panics_iff_witness :
  run (withPurchaseTime (testReceipt2 (sampleId 2)) "1400")
  = Panic [] (IndexOutOfRange 1 1)
  /\ countByte ":" "1400" = O
  /\ snd (Strconv.Atoi "1400") = None.
Proof.
  assert (H : run (withPurchaseTime (testReceipt2 (sampleId 2)) "1400")
              = Panic [] (IndexOutOfRange 1 1)) by (vm_compute; reflexivity).
  split; [exact H|].
  exact (proj2 (proj2 (proj2 (proj2 (proj2
           (proj1 (findPoints_panics_iff noEntries noEntries integerIndefinite
                     (withPurchaseTime (testReceipt2 (sampleId 2)) "1400")
                     [] (IndexOutOfRange 1 1)) H)))))).
Defined.

(** X3 at the receipt [countedBadPrice]. *)
Lemma findPoints_error_source_witness :
  run (countedBadPrice (sampleId 1))
  = Return [] (0, Some (NumError "ParseFloat" "x" ErrSyntax))
  /\ errorSource (countedBadPrice (sampleId 1))
       (NumError "ParseFloat" "x" ErrSyntax).
Proof.
  assert (H : run (countedBadPrice (sampleId 1))
              = Return [] (0, Some (NumError "ParseFloat" "x" ErrSyntax)))
    by (vm_compute; reflexivity).
  split; [exact H|].
  exact (findPoints_error_source noEntries noEntries integerIndefinite
           (countedBadPrice (sampleId 1)) [] 0 _ H).
Defined.

(** X4 at the receipt [slashDate], whose date has no hyphen. *)
Lemma findPoints_invalid_date_witness :
  countByte "-" (PurchaseDate (slashDate (sampleId 1))) = O
  /\ run (slashDate (sampleId 1))
     = Return [] (0, Some (Errorf "invalid date. Must follow the YYYY-MM-DD scheme")).
Proof.
  split; [reflexivity|].
  apply (findPoints_invalid_date noEntries noEntries integerIndefinite
           (slashDate (sampleId 1))).
  - vm_compute. reflexivity.
  - exact testReceipt1_itemsOK.
  - vm_compute. discriminate.
Defined.

(** X5 at the first receipt of the test, whose day is 1. *)
Lemma rule6_odd_day_witness :
  Strings.Split (PurchaseDate (testReceipt1 (sampleId 1))) "-"
  = ["2022"; "01"; "01"]
  /\ Strconv.Atoi "01" = (1, None)
  /\ 0 <= 1
  /\ findPoints_rule6 (testReceipt1 (sampleId 1)) 22
     = findPoints_rule7 (testReceipt1 (sampleId 1)) (GoInt.add 22 6).
Proof.
  assert (H1 : Strings.Split (PurchaseDate (testReceipt1 (sampleId 1))) "-"
               = ["2022"; "01"; "01"]) by reflexivity.
  assert (H2 : Strconv.Atoi "01" = (1, None)) by (vm_compute; reflexivity).
  split; [exact H1|]. split; [exact H2|].
  exact (rule6_odd_day (testReceipt1 (sampleId 1)) 22 _ _ _ _ H1 H2).
Defined.

(** X7 at the retailer of the second receipt of the test: 14 points. *)
Lemma countAlnum_ascii_retailer_witness :
  Forall (fun b => b < 128) (bytes "M&M Corner Market")
  /\ countAlnum noEntries noEntries (Utf8.runes "M&M Corner Market") 0
     = GoInt.wrap
         (Z.of_nat (List.length (filter isAsciiAlnum (bytes "M&M Corner Market")))).
Proof.
  assert (H : Forall (fun b => b < 128) (bytes "M&M Corner Market"))
    by (vm_compute; repeat constructor).
  split; [exact H|].
  exact (countAlnum_ascii_retailer noEntries noEntries "M&M Corner Market" H).
Defined.

(** X8 at the second receipt of the test: four items, 10 points. *)
Lemma findPoints_rule4_pairs_witness :
  Z.of_nat (List.length (Items (testReceipt2 (sampleId 2)))) < 2 ^ 50
  /\ findPoints_rule4 integerIndefinite (testReceipt2 (sampleId 2)) 89
     = findPoints_rule5 integerIndefinite (testReceipt2 (sampleId 2))
         (Items (testReceipt2 (sampleId 2)))
         (GoInt.add 89 (pairPoints (List.length (Items (testReceipt2 (sampleId 2)))))).
Proof.
  assert (H : Z.of_nat (List.length (Items (testReceipt2 (sampleId 2)))) < 2 ^ 50)
    by reflexivity.
  split; [exact H|].
  exact (findPoints_rule4_pairs integerIndefinite (testReceipt2 (sampleId 2)) 89 H).
Defined.

(** X9 at the store [sampleStore] and an id it does not hold. *)
Lemma handleGetReceiptPoints_not_found_witness :
  FindByID sampleStore (UUID_String (sampleId 9)) = None
  /\ exists out calls,
      handleGetReceiptPoints noEntries noEntries integerIndefinite sampleStore
        (UUID_String (sampleId 9)) None
      = Return out (sampleStore, calls)
      /\ calls = [WriteHeader StatusNotFound; Write "Id not found"]
      /\ statusOf calls = Some 404
      /\ bodyOf calls = "Id not found"
      /\ forall l, In (Println l) out -> False.
Proof.
  assert (H : FindByID sampleStore (UUID_String (sampleId 9)) = None)
    by (vm_compute; reflexivity).
  split; [exact H|].
  exact (handleGetReceiptPoints_not_found noEntries noEntries integerIndefinite
           sampleStore (UUID_String (sampleId 9)) None H).
Defined.

(** X10 at the store [sampleStore] and the id of its first receipt. *)
Lemma handleGetReceiptPoints_found_witness :
  FindByID sampleStore (UUID_String (sampleId 1)) = Some (testReceipt1 (sampleId 1))
  /\ run (testReceipt1 (sampleId 1)) = Return [] (28, None)
  /\ exists out' calls,
      handleGetReceiptPoints noEntries noEntries integerIndefinite sampleStore
        (UUID_String (sampleId 1)) None
      = Return out' (sampleStore, calls)
      /\ calls = [Write (fst (marshalPoints 28))]
      /\ statusOf calls = Some StatusOK
      /\ bodyOf calls
         = ("{" ++ quote ++ "points" ++ quote ++ ":" ++ itoa 28 ++ "}")%string
      /\ out' = ([] ++ [])%list.
Proof.
  assert (H1 : FindByID sampleStore (UUID_String (sampleId 1))
               = Some (testReceipt1 (sampleId 1))) by (vm_compute; reflexivity).
  assert (H2 : run (testReceipt1 (sampleId 1)) = Return [] (28, None))
    by (vm_compute; reflexivity).
  split; [exact H1|]. split; [exact H2|].
  exact (handleGetReceiptPoints_found noEntries noEntries integerIndefinite
           sampleStore (UUID_String (sampleId 1)) None _ _ _ H1 H2).
Defined.

(** X11 at the store [panicStore]. *)
Lemma handleGetReceiptPoints_panics_iff_witness :
  handleGetReceiptPoints noEntries noEntries integerIndefinite panicStore
    (UUID_String (sampleId 2)) None
  = Panic [] (IndexOutOfRange 1 1).
Proof.
  apply (proj2 (handleGetReceiptPoints_panics_iff noEntries noEntries
                  integerIndefinite panicStore (UUID_String (sampleId 2)) None
                  [] (IndexOutOfRange 1 1))).
  exists (withPurchaseTime (testReceipt2 (sampleId 2)) "1400").
  split; vm_compute; reflexivity.
Defined.

Lemma sampleStore_fresh_3 (r : StorageReceipt) :
  In r (Receipts sampleStore) -> UUID_String (Id r) <> UUID_String (sampleId 3).
Proof.
  intros Hin. simpl in Hin.
  repeat (destruct Hin as [<-|Hin]; [vm_compute; discriminate|]).
  destruct Hin.
Qed.

(** X13 at the store [sampleStore] and a third id. *)
Lemma submitted_receipt_is_found_witness :
  FindByID
    (serve noEntries noEntries integerIndefinite sampleStore
       (submission (Payload (testReceipt2 (sampleId 3))) (sampleId 3) None))
    (UUID_String (sampleId 3))
  = Some {| Payload := Payload (testReceipt2 (sampleId 3)); Id := sampleId 3 |}.
Proof.
  exact (submitted_receipt_is_found noEntries noEntries integerIndefinite
           sampleStore (Payload (testReceipt2 (sampleId 3))) (sampleId 3) None
           sampleStore_fresh_3).
Defined.

(** X14 at the store [sampleStore], its first receipt and one more
    submission. *)
Lemma stored_receipt_stays_found_witness :
  FindByID sampleStore (UUID_String (sampleId 1)) = Some (testReceipt1 (sampleId 1))
  /\ FindByID
       (serve noEntries noEntries integerIndefinite sampleStore
          (submission (Payload (testReceipt1 (sampleId 1))) (sampleId 3) None))
       (UUID_String (sampleId 1))
     = Some (testReceipt1 (sampleId 1)).
Proof.
  assert (H : FindByID sampleStore (UUID_String (sampleId 1))
              = Some (testReceipt1 (sampleId 1))) by (vm_compute; reflexivity).
  split; [exact H|].
  exact (stored_receipt_stays_found noEntries noEntries integerIndefinite
           sampleStore _ _ _ H).
Defined.

Lemma sampleId_wf (last : Z) : 0 <= last < 256 -> wfUUID (sampleId last).
Proof.
  intros H. split; [reflexivity|]. unfold sampleId.
  repeat (constructor; [lia|]). constructor.
Qed.

(** X15 at the store a first submission leaves. *)
Lemma reachable_store_finds_each_witness :
  reachable noEntries noEntries integerIndefinite
    (serve noEntries noEntries integerIndefinite NewReceiptHandler samplePost)
  /\ FindByID
       (serve noEntries noEntries integerIndefinite NewReceiptHandler samplePost)
       (UUID_String (sampleId 1))
     = Some (testReceipt1 (sampleId 1)).
Proof.
  assert (H : reachable noEntries noEntries integerIndefinite
                (serve noEntries noEntries integerIndefinite NewReceiptHandler
                   samplePost)).
  { apply reachable_serve; [apply reachable_new|]. intros []. }
  split; [exact H|].
  refine (reachable_store_finds_each noEntries noEntries integerIndefinite _ H
            _ (testReceipt1 (sampleId 1)) _).
  - intros r [<-|[]]. apply sampleId_wf. lia.
  - left. reflexivity.
Defined.

(** * The score as a sum *)

Lemma wrap_range (z : Z) : GoInt.inRange (GoInt.wrap z) = true.
Proof.
  unfold GoInt.inRange, GoInt.wrap, GoInt.minInt, GoInt.maxInt.
  pose proof (Z.mod_pos_bound (z + 2 ^ 63) (2 ^ 64) ltac:(lia)).
  apply andb_true_intro. split; apply Z.leb_le; lia.
Qed.

Section ScoreSums.

Variables (Letter Digit : Z -> bool) (intUndef : Float64.float64 -> Z).

Lemma rule7_sum (re : StorageReceipt) :
  timeOK re ->
  forall y,
    findPoints_rule7 re (GoInt.wrap y)
    = Return (timePrint re) (GoInt.wrap (y + timePts re), None).
Proof.
  intros (hh & mm & rest & Hs & Hh & Hm) y.
  destruct (Strconv.Atoi hh) as [hrs [e|]] eqn:Eh; [discriminate|].
  destruct (Strconv.Atoi mm) as [mins [e|]] eqn:Em; [discriminate|].
  rewrite (rule7_at re _ hh mm rest hrs mins Hs Eh Em).
  unfold timePts, timePrint. rewrite Hs, Eh, Em. cbn [fst].
  destruct (inAfternoonWindow hrs mins).
  - unfold GoInt.add. rewrite wrap_wrap_add. reflexivity.
  - rewrite Z.add_0_r. reflexivity.
Qed.

Lemma rule6_sum (re : StorageReceipt) :
  dateOK re -> timeOK re ->
  forall y,
    findPoints_rule6 re (GoInt.wrap y)
    = Return (timePrint re) (GoInt.wrap (y + dayPts re + timePts re), None).
Proof.
  intros (yy & m & d & Hs & Hd) Ht y.
  unfold findPoints_rule6, index, dayPts. rewrite Hs. simpl.
  destruct (Strconv.Atoi d) as [n [e|]]; [discriminate|]. cbn [fst].
  destruct (GoInt.rem n 2 =? 1).
  - unfold GoInt.add. rewrite wrap_wrap_add. apply rule7_sum. assumption.
  - rewrite Z.add_0_r. apply rule7_sum. assumption.
Qed.

Lemma rule5_sum (re : StorageReceipt) (items : list Item) :
  itemsOK items -> dateOK re -> timeOK re ->
  forall y,
    findPoints_rule5 intUndef re items (GoInt.wrap y)
    = Return (timePrint re)
        (GoInt.wrap (y + itemsPts intUndef items + dayPts re + timePts re), None).
Proof.
  intros Hi Hd Ht.
  induction items as [|item items IH]; intros y;
    cbn [findPoints_rule5 itemsPts].
  - rewrite Z.add_0_r. apply rule6_sum; assumption.
  - assert (Hi' : itemsOK items)
      by (intros it Hin Hc; apply Hi; [right|]; assumption).
    unfold itemPts.
    destruct (GoInt.rem (len (Strings.TrimSpace (ShortDescription item))) 3 =? 0)
      eqn:Hc.
    + apply Z.eqb_eq in Hc.
      specialize (Hi item (or_introl eq_refl) Hc).
      destruct (Strconv.ParseFloat (Price item)) as [f [e|]]; [discriminate|].
      cbn [fst]. unfold GoInt.add. rewrite wrap_wrap_add, (IH Hi').
      do 3 f_equal. lia.
    + rewrite (IH Hi'). reflexivity.
Qed.

(** A receipt that is right everywhere scores the sum of its rules, as an
    [int]. *)
Lemma findPoints_sum (re : StorageReceipt) :
  totalOK re -> itemsOK (Items re) -> dateOK re -> timeOK re ->
  findPoints Letter Digit intUndef re
  = Return (timePrint re)
      (GoInt.wrap
         (restOfRules Letter Digit intUndef re
          + roundDollarPts (fst (Strconv.ParseFloat (Total re)))
          + quarterPts (fst (Strconv.ParseFloat (Total re)))),
       None).
Proof.
  unfold totalOK. intros Htot Hi Hd Ht.
  unfold findPoints, findPoints_rule4, restOfRules, roundDollarPts, quarterPts,
    pairPts.
  destruct (Strconv.ParseFloat (Total re)) as [p [e|]]; [discriminate|].
  cbn [fst].
  destruct (Float64.eqb p (Float64.Floor p)),
    (Float64.eqb (Float64.Mod p Float64.c_0_25) Float64.c_0);
    unfold GoInt.add;
    repeat (rewrite ?wrap_wrap_add, <- ?Z.add_assoc);
    rewrite (rule5_sum re (Items re) Hi Hd Ht); do 3 f_equal; lia.
Qed.

Lemma findPoints_score_parts (re : StorageReceipt) out s :
  findPoints Letter Digit intUndef re = Return out (s, None) ->
  totalOK re /\ itemsOK (Items re) /\ dateOK re /\ timeOK re.
Proof.
  unfold totalOK, findPoints, findPoints_rule4. intros H.
  destruct (Strconv.ParseFloat (Total re)) as [p [e|]]; [discriminate|].
  split; [reflexivity|].
  eapply rule5_scores. eauto.
Qed.

(** Whatever [findPoints] returns as a score is that sum. *)
Lemma findPoints_returns_sum (re : StorageReceipt) out s :
  findPoints Letter Digit intUndef re = Return out (s, None) ->
  out = timePrint re
  /\ s = GoInt.wrap
           (restOfRules Letter Digit intUndef re
            + roundDollarPts (fst (Strconv.ParseFloat (Total re)))
            + quarterPts (fst (Strconv.ParseFloat (Total re)))).
Proof.
  intros H.
  destruct (findPoints_score_parts re out s H) as (Htot & Hi & Hd & Ht).
  rewrite (findPoints_sum re Htot Hi Hd Ht) in H.
  inversion H. split; reflexivity.
Qed.

End ScoreSums.

(** * Prices, totals and the items of rule 5 *)

Lemma to_int_inRange (undef : Float64.float64 -> Z) (x : Float64.float64) :
  GoInt.inRange (Float64.to_int undef x) = true.
Proof.
  destruct x as [s|s| |s m e]; cbn [Float64.to_int];
    try apply wrap_range; [reflexivity|].
  cbv zeta.
  match goal with |- context [if GoInt.inRange ?n then _ else _] =>
    destruct (GoInt.inRange n) eqn:Hn end;
    [exact Hn | apply wrap_range].
Qed.

(** A number that [strconv.ParseFloat] accepts is no infinity: an infinity
    with no error comes from the names only. *)
Lemma ParseFloat_number_not_infinity (s : string) (p : Float64.float64) :
  isNumber s -> Strconv.ParseFloat s = (p, None) ->
  forall sg, p <> S754_infinity sg.
Proof.
  unfold isNumber, Strconv.ParseFloat. intros Hn H sg. rewrite Hn in H.
  destruct (Strconv.readFloat (bytes s)) as [[[[neg hex] m] e]|];
    [|discriminate].
  destruct (Strconv.nearest neg hex m e); inversion H; discriminate.
Qed.

(** A total that is no infinity and earns the bonus of rule 2 earns that
    of rule 3. *)
Lemma round_dollar_then_quarter (p : Float64.float64) :
  (forall sg, p <> S754_infinity sg) ->
  Float64.eqb p (Float64.Floor p) = true ->
  Float64.eqb (Float64.Mod p Float64.c_0_25) Float64.c_0 = true.
Proof.
  intros Hinf H. destruct p as [s|s| |s m e].
  - apply round_dollar_is_quarter_multiple; [reflexivity | exact H].
  - elim (Hinf s). reflexivity.
  - discriminate H.
  - apply round_dollar_is_quarter_multiple; [reflexivity | exact H].
Qed.

Lemma itemsPts_app (undef : Float64.float64 -> Z) (l1 l2 : list Item) :
  itemsPts undef (l1 ++ l2) = itemsPts undef l1 + itemsPts undef l2.
Proof.
  induction l1 as [|a l1 IH]; cbn [app itemsPts]; [reflexivity|].
  rewrite IH. lia.
Qed.

Lemma itemPts_uncounted (undef : Float64.float64 -> Z) (item : Item) :
  ~ counted item -> itemPts undef item = 0.
Proof.
  unfold counted, itemPts. intros Hc.
  destruct (GoInt.rem (len (Strings.TrimSpace (ShortDescription item))) 3 =? 0)
    eqn:E; [apply Z.eqb_eq in E; elim (Hc E) | reflexivity].
Qed.

Lemma itemPts_counted (undef : Float64.float64 -> Z) (item : Item)
  (p : Float64.float64) (err : option error) :
  counted item -> Strconv.ParseFloat (Price item) = (p, err) ->
  itemPts undef item
  = Float64.to_int undef (Float64.Ceil (Float64.mul p Float64.c_0_2)).
Proof.
  unfold counted, itemPts. intros Hc Hp. rewrite Hc, Hp. reflexivity.
Qed.

Lemma itemsOK_replace (before after : list Item) (a b : Item) :
  itemsOK (before ++ a :: after) ->
  (counted b -> snd (Strconv.ParseFloat (Price b)) = None) ->
  itemsOK (before ++ b :: after).
Proof.
  unfold itemsOK. intros H Hb it Hin Hc.
  apply in_app_or in Hin. destruct Hin as [Hin|[<-|Hin]].
  - apply H; [apply in_or_app; left; assumption | assumption].
  - apply Hb. assumption.
  - apply H; [apply in_or_app; right; right; assumption | assumption].
Qed.

(** The first item that passes the guard of rule 5 with a price that is no
    number. *)
Lemma first_bad_item (items : list Item) :
  (exists item, In item items /\ counted item
                /\ snd (Strconv.ParseFloat (Price item)) <> None) ->
  exists before item after f err,
    items = (before ++ item :: after)%list
    /\ itemsOK before /\ counted item
    /\ Strconv.ParseFloat (Price item) = (f, Some err).
Proof.
  induction items as [|a items IH]; intros (bad & Hin & Hc & Hbad).
  - destruct Hin.
  - destruct (Z.eq_dec
                (GoInt.rem (len (Strings.TrimSpace (ShortDescription a))) 3) 0)
      as [Ha|Ha].
    + destruct (Strconv.ParseFloat (Price a)) as [f [err|]] eqn:Hp.
      * exists [], a, items, f, err.
        split; [reflexivity|]. split; [intros it []|]. split; assumption.
      * destruct Hin as [->|Hin]; [rewrite Hp in Hbad; elim Hbad; reflexivity|].
        destruct IH as (before & item & after & f' & err & -> & Hok & Hci & Hpi);
          [exists bad; auto|].
        exists (a :: before), item, after, f', err.
        split; [reflexivity|]. split; [|split; assumption].
        intros it [<-|Hit] Hcit; [rewrite Hp; reflexivity | apply Hok; assumption].
    + destruct Hin as [->|Hin]; [elim Ha; exact Hc|].
      destruct IH as (before & item & after & f' & err & -> & Hok & Hci & Hpi);
        [exists bad; auto|].
      exists (a :: before), item, after, f', err.
      split; [reflexivity|]. split; [|split; assumption].
      intros it [<-|Hit] Hcit; [elim Ha; exact Hcit | apply Hok; assumption].
Qed.

Section RuleClaims.

Variables (Letter Digit : Z -> bool) (intUndef : Float64.float64 -> Z).

(** Rule 5 stops at the first item that passes its guard with a price that
    is no number, and returns the error of that price. *)
Lemma rule5_first_bad (re : StorageReceipt) (before after : list Item)
  (item : Item) (f : Float64.float64) (err : error) :
  itemsOK before -> counted item ->
  Strconv.ParseFloat (Price item) = (f, Some err) ->
  forall total,
    findPoints_rule5 intUndef re (before ++ item :: after) total
    = Return [] (0, Some err).
Proof.
  intros Hok Hc Hp.
  induction before as [|a before IH]; intros total;
    cbn [app findPoints_rule5].
  - unfold counted in Hc. rewrite Hc, Hp. reflexivity.
  - assert (Hok' : itemsOK before)
      by (intros it Hin Hcit; apply Hok; [right|]; assumption).
    destruct (GoInt.rem (len (Strings.TrimSpace (ShortDescription a))) 3 =? 0)
      eqn:Ha; [|apply IH; assumption].
    apply Z.eqb_eq in Ha. specialize (Hok a (or_introl eq_refl) Ha).
    destruct (Strconv.ParseFloat (Price a)) as [g [e|]]; [discriminate|].
    apply IH. assumption.
Qed.

(** Rule 5 reads the description of every item, and the price of those
    that pass its guard. *)
Lemma rule5_same_where_priced (re re' : StorageReceipt)
  (items items' : list Item) :
  Forall2 sameWherePriced items items' ->
  (forall total, findPoints_rule6 re total = findPoints_rule6 re' total) ->
  forall total,
    findPoints_rule5 intUndef re items total
    = findPoints_rule5 intUndef re' items' total.
Proof.
  intros HF H6.
  induction HF as [|a b l l' [Hd Hp] _ IH]; intros total;
    cbn [findPoints_rule5].
  - apply H6.
  - rewrite <- Hd.
    destruct (GoInt.rem (len (Strings.TrimSpace (ShortDescription a))) 3 =? 0)
      eqn:Hc; [|apply IH].
    apply Z.eqb_eq in Hc. rewrite <- (Hp Hc).
    destruct (Strconv.ParseFloat (Price a)) as [f [e|]]; [reflexivity | apply IH].
Qed.

(** C3, amended. When the total parses and some item whose trimmed
    description has a length that is a multiple of 3 has a price that
    [strconv.ParseFloat] rejects, the items split at the first such item:
    every item before it that passes the guard has a price that parses,
    the item passes the guard, [strconv.ParseFloat] returns an error of
    its own for the price of the item, and [findPoints] returns the score
    0 with that error. And the prices of the items that do not pass the
    guard are never read: whatever they are replaced by, [findPoints]
    ends the same way. *)
Theorem findPoints_bad_price_of_counted_item (re : StorageReceipt) :
  (totalOK re ->
   (exists item, In item (Items re) /\ counted item
                 /\ snd (Strconv.ParseFloat (Price item)) <> None) ->
   exists before item after f cause,
     Items re = (before ++ item :: after)%list
     /\ itemsOK before
     /\ counted item
     /\ Strconv.ParseFloat (Price item)
        = (f, Some (NumError "ParseFloat" (Price item) cause))
     /\ findPoints Letter Digit intUndef re
        = Return [] (0, Some (NumError "ParseFloat" (Price item) cause)))
  /\ (forall items',
        Forall2 sameWherePriced (Items re) items' ->
        findPoints Letter Digit intUndef (withItems re items')
        = findPoints Letter Digit intUndef re).
Proof.
  split.
  - unfold totalOK. intros Htot Hbad.
    destruct (first_bad_item _ Hbad)
      as (before & item & after & f & err & Hitems & Hok & Hc & Hp).
    destruct (ParseFloat_error _ _ _ Hp) as [cause ->].
    exists before, item, after, f, cause.
    split; [exact Hitems|]. split; [exact Hok|]. split; [exact Hc|].
    split; [exact Hp|].
    unfold findPoints, findPoints_rule4.
    destruct (Strconv.ParseFloat (Total re)) as [p [e|]]; [discriminate|].
    rewrite Hitems. apply (rule5_first_bad re before after item f _ Hok Hc Hp).
  - intros items' HF. unfold findPoints, findPoints_rule4.
    cbn [withItems Payload Retailer Total Items].
    rewrite <- (Forall2_length HF).
    destruct (Strconv.ParseFloat (Total re)) as [p [e|]]; [reflexivity|].
    symmetry. apply rule5_same_where_priced; [exact HF|].
    intros total. reflexivity.
Qed.

(** C6. Let a receipt score with some total. Whatever total that parses
    it is given, it scores the points of the other rules and those of
    rules 2 and 3 for the parsed total, added as an [int]. The total
    [35.35] parses to a value that differs from its floor and whose
    remainder by 0.25 is not 0, and the receipt scores the points of the
    other rules alone; the total [9.00] parses to a value equal to its
    floor and of remainder 0, and the receipt scores 50 points and 25
    more, the score with [35.35] and 75. *)
Theorem findPoints_total_35_35_and_9_00 (re : StorageReceipt) (t0 : string)
  (out0 : list stdoutCall) (s0 : Z) :
  findPoints Letter Digit intUndef (withTotal re t0) = Return out0 (s0, None) ->
  exists p q,
    Strconv.ParseFloat "35.35" = (p, None)
    /\ Float64.eqb p (Float64.Floor p) = false
    /\ Float64.eqb (Float64.Mod p Float64.c_0_25) Float64.c_0 = false
    /\ findPoints Letter Digit intUndef (withTotal re "35.35")
       = Return out0
           (GoInt.wrap (restOfRules Letter Digit intUndef re + 0 + 0), None)
    /\ Strconv.ParseFloat "9.00" = (q, None)
    /\ Float64.eqb q (Float64.Floor q) = true
    /\ Float64.eqb (Float64.Mod q Float64.c_0_25) Float64.c_0 = true
    /\ findPoints Letter Digit intUndef (withTotal re "9.00")
       = Return out0
           (GoInt.wrap (restOfRules Letter Digit intUndef re + 50 + 25), None)
    /\ GoInt.wrap (restOfRules Letter Digit intUndef re + 50 + 25)
       = GoInt.add (GoInt.wrap (restOfRules Letter Digit intUndef re + 0 + 0)) 75
    /\ forall t r,
        Strconv.ParseFloat t = (r, None) ->
        findPoints Letter Digit intUndef (withTotal re t)
        = Return out0
            (GoInt.wrap
               (restOfRules Letter Digit intUndef re
                + roundDollarPts r + quarterPts r), None).
Proof.
  intros H0.
  destruct (findPoints_score_parts Letter Digit intUndef _ _ _ H0)
    as (_ & Hi & Hd & Ht).
  destruct (findPoints_returns_sum Letter Digit intUndef _ _ _ H0) as [Hout _].
  assert (Hall : forall t r,
             Strconv.ParseFloat t = (r, None) ->
             findPoints Letter Digit intUndef (withTotal re t)
             = Return out0
                 (GoInt.wrap
                    (restOfRules Letter Digit intUndef re
                     + roundDollarPts r + quarterPts r), None)).
  { intros t r Hr.
    assert (Htot : totalOK (withTotal re t))
      by (unfold totalOK; cbn [withTotal Payload Total]; rewrite Hr; reflexivity).
    rewrite (findPoints_sum Letter Digit intUndef (withTotal re t) Htot Hi Hd Ht).
    cbn [withTotal Payload Total]. rewrite Hr, Hout. reflexivity. }
  assert (E1 : Float64.eqb (S754_finite false 4975070213360845 (-47))
                 (Float64.Floor (S754_finite false 4975070213360845 (-47)))
               = false) by (vm_compute; reflexivity).
  assert (E2 : Float64.eqb
                 (Float64.Mod (S754_finite false 4975070213360845 (-47))
                    Float64.c_0_25) Float64.c_0 = false)
    by (vm_compute; reflexivity).
  assert (E3 : Float64.eqb (S754_finite false 5066549580791808 (-49))
                 (Float64.Floor (S754_finite false 5066549580791808 (-49)))
               = true) by (vm_compute; reflexivity).
  assert (E4 : Float64.eqb
                 (Float64.Mod (S754_finite false 5066549580791808 (-49))
                    Float64.c_0_25) Float64.c_0 = true)
    by (vm_compute; reflexivity).
  exists (S754_finite false 4975070213360845 (-47)),
    (S754_finite false 5066549580791808 (-49)).
  split; [apply ParseFloat_35_35|]. split; [exact E1|]. split; [exact E2|].
  split.
  { rewrite (Hall _ _ ParseFloat_35_35). unfold roundDollarPts, quarterPts.
    rewrite E1, E2. reflexivity. }
  split; [apply ParseFloat_9_00|]. split; [exact E3|]. split; [exact E4|].
  split.
  { rewrite (Hall _ _ ParseFloat_9_00). unfold roundDollarPts, quarterPts.
    rewrite E3, E4. reflexivity. }
  split; [|exact Hall].
  unfold GoInt.add. rewrite wrap_wrap_add. f_equal. lia.
Qed.

(** C7, amended. Let a receipt score [s] with an item that does not
    pass the guard of rule 5. With an item in its place whose description
    trims to the empty string and whose price parses to [p], that item
    passes the guard and the receipt scores [s] and
    [int(Ceil(p * 0.2))], added as an [int]; it scores the same with any
    other item there that passes the guard and whose price parses to [p].
    The points added are an [int]: the least integer not below the
    product when the product is finite and that integer fits an [int],
    and another number when that integer does not fit. *)
Theorem rule5_empty_description (re : StorageReceipt)
  (before after : list Item) (item0 item : Item) (p : Float64.float64)
  (out : list stdoutCall) (s : Z) :
  ~ counted item0 ->
  findPoints Letter Digit intUndef (withItems re (before ++ item0 :: after))
  = Return out (s, None) ->
  Strings.TrimSpace (ShortDescription item) = "" ->
  Strconv.ParseFloat (Price item) = (p, None) ->
  let pts := Float64.to_int intUndef (Float64.Ceil (Float64.mul p Float64.c_0_2)) in
  counted item
  /\ findPoints Letter Digit intUndef (withItems re (before ++ item :: after))
     = Return out (GoInt.wrap (s + pts), None)
  /\ (forall item',
        counted item' -> Strconv.ParseFloat (Price item') = (p, None) ->
        findPoints Letter Digit intUndef (withItems re (before ++ item' :: after))
        = Return out (GoInt.wrap (s + pts), None))
  /\ (forall sg, Float64.mul p Float64.c_0_2 = S754_zero sg -> pts = 0)
  /\ (forall sg m e,
        Float64.mul p Float64.c_0_2 = S754_finite sg m e ->
        GoInt.inRange (Float64.ceilZ sg m e) = true ->
        pts = Float64.ceilZ sg m e /\ is_ceiling sg m e pts)
  /\ GoInt.inRange pts = true
  /\ (forall sg m e,
        Float64.mul p Float64.c_0_2 = S754_finite sg m e ->
        GoInt.inRange (Float64.ceilZ sg m e) = false ->
        is_ceiling sg m e (Float64.ceilZ sg m e)
        /\ pts <> Float64.ceilZ sg m e).
Proof.
  intros Hc0 H0 Hempty Hp pts.
  assert (Hc : counted item) by (unfold counted; rewrite Hempty; reflexivity).
  split; [exact Hc|].
  destruct (findPoints_score_parts Letter Digit intUndef _ _ _ H0)
    as (Htot & Hi & Hd & Ht).
  destruct (findPoints_returns_sum Letter Digit intUndef _ _ _ H0) as [Hout Hs].
  cbn [withItems Payload Items] in Hi.
  assert (Hstep : forall it,
             counted it -> Strconv.ParseFloat (Price it) = (p, None) ->
             findPoints Letter Digit intUndef
               (withItems re (before ++ it :: after))
             = Return out (GoInt.wrap (s + pts), None)).
  { intros it Hit Hpit.
    assert (Hi' : itemsOK (Items (withItems re (before ++ it :: after)))).
    { cbn [withItems Payload Items].
      apply (itemsOK_replace before after item0 it Hi).
      intros _. rewrite Hpit. reflexivity. }
    rewrite (findPoints_sum Letter Digit intUndef
               (withItems re (before ++ it :: after)) Htot Hi' Hd Ht).
    rewrite Hout, Hs. rewrite wrap_wrap_add.
    unfold restOfRules, dayPts, timePts, timePrint.
    cbn [withItems Payload Items Retailer Total PurchaseDate PurchaseTime].
    rewrite !length_app, !itemsPts_app. cbn [List.length itemsPts].
    rewrite (itemPts_uncounted intUndef item0 Hc0),
      (itemPts_counted intUndef it p None Hit Hpit).
    fold pts. do 3 f_equal. lia. }
  split; [apply Hstep; assumption|].
  split; [exact Hstep|].
  split; [intros sg Hm; subst pts; rewrite Hm; reflexivity|].
  split.
  { intros sg m e Hm Hr. subst pts. rewrite Hm.
    rewrite (to_int_Ceil intUndef sg m e Hr).
    split; [reflexivity | apply ceilZ_is_ceiling]. }
  split; [apply to_int_inRange|].
  intros sg m e Hm Hr. split; [apply ceilZ_is_ceiling|].
  intros E. rewrite <- E in Hr. subst pts.
  rewrite to_int_inRange in Hr. discriminate Hr.
Qed.

(** C10. When the total is a number that parses, its value is no
    infinity; the bonus of rule 2 is never given without that of rule 3;
    rules 2 and 3 give 0, 25 or 75 points together; and the receipt, when
    its items, date and time are right, scores these points and those of
    the other rules, added as an [int]: whatever score [findPoints]
    returns is that sum. *)
Theorem findPoints_round_dollar_with_quarter (re : StorageReceipt)
  (p : Float64.float64) :
  isNumber (Total re) ->
  Strconv.ParseFloat (Total re) = (p, None) ->
  (forall sg, p <> S754_infinity sg)
  /\ (Float64.eqb p (Float64.Floor p) = true ->
      Float64.eqb (Float64.Mod p Float64.c_0_25) Float64.c_0 = true)
  /\ (roundDollarPts p = 50 -> quarterPts p = 25)
  /\ (roundDollarPts p + quarterPts p = 0
      \/ roundDollarPts p + quarterPts p = 25
      \/ roundDollarPts p + quarterPts p = 75)
  /\ (itemsOK (Items re) -> dateOK re -> timeOK re ->
      findPoints Letter Digit intUndef re
      = Return (timePrint re)
          (GoInt.wrap
             (restOfRules Letter Digit intUndef re
              + (roundDollarPts p + quarterPts p)), None))
  /\ (forall out s,
        findPoints Letter Digit intUndef re = Return out (s, None) ->
        s = GoInt.wrap
              (restOfRules Letter Digit intUndef re
               + (roundDollarPts p + quarterPts p))).
Proof.
  intros Hn Hp.
  pose proof (ParseFloat_number_not_infinity _ _ Hn Hp) as Hinf.
  pose proof (round_dollar_then_quarter p Hinf) as Himp.
  split; [exact Hinf|]. split; [exact Himp|].
  assert (Hsum : itemsOK (Items re) -> dateOK re -> timeOK re ->
            findPoints Letter Digit intUndef re
            = Return (timePrint re)
                (GoInt.wrap
                   (restOfRules Letter Digit intUndef re
                    + (roundDollarPts p + quarterPts p)), None)).
  { intros Hi Hd Ht.
    assert (Htot : totalOK re) by (unfold totalOK; rewrite Hp; reflexivity).
    rewrite (findPoints_sum Letter Digit intUndef re Htot Hi Hd Ht), Hp.
    cbn [fst]. rewrite Z.add_assoc. reflexivity. }
  unfold roundDollarPts, quarterPts in *.
  destruct (Float64.eqb p (Float64.Floor p)).
  - rewrite (Himp eq_refl) in *.
    split; [reflexivity|]. split; [auto|]. split; [exact Hsum|].
    intros out s H.
    destruct (findPoints_score_parts Letter Digit intUndef _ _ _ H)
      as (_ & Hi & Hd & Ht).
    rewrite (Hsum Hi Hd Ht) in H. inversion H. reflexivity.
  - split; [discriminate|].
    destruct (Float64.eqb (Float64.Mod p Float64.c_0_25) Float64.c_0).
    + split; [auto|]. split; [exact Hsum|].
      intros out s H.
      destruct (findPoints_score_parts Letter Digit intUndef _ _ _ H)
        as (_ & Hi & Hd & Ht).
      rewrite (Hsum Hi Hd Ht) in H. inversion H. reflexivity.
    + split; [auto|]. split; [exact Hsum|].
      intros out s H.
      destruct (findPoints_score_parts Letter Digit intUndef _ _ _ H)
        as (_ & Hi & Hd & Ht).
      rewrite (Hsum Hi Hd Ht) in H. inversion H. reflexivity.
Qed.

End RuleClaims.

(** C3, as stated, fails: the receipt [uncountedBadPrice] has a total that
    parses and an item whose price [x] does not, and [findPoints] returns
    the score 12 with no error, because the description [ab] of that item
    has a length that is no multiple of 3 and its price is never parsed. *)
Lemma findPoints_ignores_uncounted_bad_price :
  snd (Strconv.ParseFloat (Total (uncountedBadPrice (sampleId 1)))) = None
  /\ In {| ShortDescription := "ab"; Price := "x" |}
       (Items (uncountedBadPrice (sampleId 1)))
  /\ snd (Strconv.ParseFloat "x") = Some (NumError "ParseFloat" "x" ErrSyntax)
  /\ run (uncountedBadPrice (sampleId 1)) = Return [] (12, None).
Proof. repeat split; vm_compute; auto. Qed.

(** The amended C3 at the receipt [laterBadPrice]: of its four items the
    last two pass the guard with a price that is no number. *)
Lemma findPoints_bad_price_of_counted_item_witness :
  totalOK (laterBadPrice (sampleId 1))
  /\ (exists item, In item (Items (laterBadPrice (sampleId 1)))
        /\ counted item
        /\ snd (Strconv.ParseFloat (Price item)) <> None)
  /\ exists before item after f cause,
      Items (laterBadPrice (sampleId 1)) = (before ++ item :: after)%list
      /\ itemsOK before
      /\ counted item
      /\ Strconv.ParseFloat (Price item)
         = (f, Some (NumError "ParseFloat" (Price item) cause))
      /\ run (laterBadPrice (sampleId 1))
         = Return [] (0, Some (NumError "ParseFloat" (Price item) cause)).
Proof.
  assert (H1 : totalOK (laterBadPrice (sampleId 1)))
    by (vm_compute; reflexivity).
  assert (H2 : exists item, In item (Items (laterBadPrice (sampleId 1)))
        /\ counted item
        /\ snd (Strconv.ParseFloat (Price item)) <> None).
  { exists {| ShortDescription := "abcdef"; Price := "z" |}.
    split; [right; right; right; left; reflexivity|].
    split; [vm_compute; reflexivity|].
    vm_compute. discriminate. }
  split; [exact H1|]. split; [exact H2|].
  exact (proj1 (findPoints_bad_price_of_counted_item noEntries noEntries
                  integerIndefinite (laterBadPrice (sampleId 1))) H1 H2).
Defined.

(** The error of the receipt [laterBadPrice] is that of the price [x] of
    its third item, the first that passes the guard with a price that is
    no number; with other prices for the second item, which does not pass
    the guard, it is the same. *)
Example laterBadPrice_error :
  run (laterBadPrice (sampleId 1))
  = Return [] (0, Some (NumError "ParseFloat" "x" ErrSyntax))
  /\ run (withItems (laterBadPrice (sampleId 1))
            [ {| ShortDescription := "abc"; Price := "3.00" |};
              {| ShortDescription := "ab"; Price := "7.50" |};
              {| ShortDescription := "   "; Price := "x" |};
              {| ShortDescription := "abcdef"; Price := "z" |} ])
     = Return [] (0, Some (NumError "ParseFloat" "x" ErrSyntax)).
Proof. split; vm_compute; reflexivity. Qed.

(** C6 at the second receipt of the test: it scores 109 with its total
    [9.00] and 34 with the total [35.35]. *)
Lemma findPoints_total_35_35_and_9_00_witness :
  run (withTotal (testReceipt2 (sampleId 2)) "9.00") = Return [] (109, None)
  /\ run (withTotal (testReceipt2 (sampleId 2)) "35.35") = Return [] (34, None)
  /\ restOfRules noEntries noEntries integerIndefinite (testReceipt2 (sampleId 2))
     = 34.
Proof.
  assert (H0 : findPoints noEntries noEntries integerIndefinite
                 (withTotal (testReceipt2 (sampleId 2)) "9.00")
               = Return [] (109, None)) by (vm_compute; reflexivity).
  destruct (findPoints_total_35_35_and_9_00 noEntries noEntries
              integerIndefinite (testReceipt2 (sampleId 2)) "9.00" [] 109 H0)
    as (p & q & _ & _ & _ & H35 & _).
  split; [exact H0|]. split; [|vm_compute; reflexivity].
  unfold run. rewrite H35. vm_compute. reflexivity.
Defined.

(** C7, as stated, fails: the description of the item [blankHugeItem]
    trims to the empty string and its price parses, to 10^20; the product
    by 0.2 is the [float64] 2 * 10^19, which is its own ceiling and is
    beyond every [int], so that no conversion to [int] gives it. Where the
    conversion gives the least [int], a receipt that scores 99 with an item
    that does not pass the guard scores 99 - 2^63 with this item in its
    place. *)
Lemma rule5_blank_item_huge_price :
  Strings.TrimSpace (ShortDescription blankHugeItem) = ""
  /\ Strconv.ParseFloat (Price blankHugeItem)
     = (S754_finite false 6103515625000000 14, None)
  /\ Float64.mul (S754_finite false 6103515625000000 14) Float64.c_0_2
     = S754_finite false 4882812500000000 12
  /\ is_ceiling false 4882812500000000 12 (2 * 10 ^ 19)
  /\ GoInt.maxInt < 2 * 10 ^ 19
  /\ (forall undef,
        Float64.to_int undef
          (Float64.Ceil
             (Float64.mul (S754_finite false 6103515625000000 14) Float64.c_0_2))
        <> 2 * 10 ^ 19)
  /\ Float64.to_int integerIndefinite
       (Float64.Ceil
          (Float64.mul (S754_finite false 6103515625000000 14) Float64.c_0_2))
     = - 2 ^ 63
  /\ run (withItems (testReceipt2 (sampleId 1)) [uncountedItem])
     = Return [] (99, None)
  /\ run (withItems (testReceipt2 (sampleId 1)) [blankHugeItem])
     = Return [] (99 - 2 ^ 63, None)
  /\ 99 - 2 ^ 63 <> GoInt.wrap (99 + 2 * 10 ^ 19).
Proof.
  split; [vm_compute; reflexivity|]. split; [vm_compute; reflexivity|].
  split; [vm_compute; reflexivity|]. split; [vm_compute; reflexivity|].
  split; [vm_compute; reflexivity|].
  split.
  { intros undef E.
    pose proof (to_int_inRange undef
                  (Float64.Ceil
                     (Float64.mul (S754_finite false 6103515625000000 14)
                        Float64.c_0_2))) as Hr.
    rewrite E in Hr. vm_compute in Hr. discriminate Hr. }
  split; [vm_compute; reflexivity|]. split; [vm_compute; reflexivity|].
  split; [vm_compute; reflexivity|]. vm_compute. discriminate.
Qed.

(** The amended C7 at the item [blankItem], in the place of an item that
    does not pass the guard: its price 5.00 earns one point. *)
Lemma rule5_empty_description_witness :
  ~ counted uncountedItem
  /\ run (withItems (testReceipt2 (sampleId 1)) [uncountedItem])
     = Return [] (99, None)
  /\ Strings.TrimSpace (ShortDescription blankItem) = ""
  /\ Strconv.ParseFloat (Price blankItem)
     = (S754_finite false 5629499534213120 (-50), None)
  /\ run (withItems (testReceipt2 (sampleId 1)) [blankItem])
     = Return [] (100, None).
Proof.
  assert (H1 : ~ counted uncountedItem)
    by (intros H; vm_compute in H; discriminate H).
  assert (H2 : findPoints noEntries noEntries integerIndefinite
                 (withItems (testReceipt2 (sampleId 1))
                    ([] ++ uncountedItem :: []))
               = Return [] (99, None)) by (vm_compute; reflexivity).
  assert (H3 : Strings.TrimSpace (ShortDescription blankItem) = "")
    by (vm_compute; reflexivity).
  assert (H4 : Strconv.ParseFloat (Price blankItem)
               = (S754_finite false 5629499534213120 (-50), None))
    by (vm_compute; reflexivity).
  split; [exact H1|]. split; [exact H2|]. split; [exact H3|].
  split; [exact H4|].
  destruct (rule5_empty_description noEntries noEntries integerIndefinite
              (testReceipt2 (sampleId 1)) [] [] uncountedItem blankItem
              _ [] 99 H1 H2 H3 H4) as (_ & H & _).
  unfold run. cbn [app] in H. rewrite H. vm_compute. reflexivity.
Defined.

(** C10 at the second receipt of the test: rules 2 and 3 give 75 of its
    109 points. *)
Lemma findPoints_round_dollar_with_quarter_witness :
  isNumber (Total (testReceipt2 (sampleId 2)))
  /\ Strconv.ParseFloat (Total (testReceipt2 (sampleId 2)))
     = (S754_finite false 5066549580791808 (-49), None)
  /\ run (testReceipt2 (sampleId 2)) = Return [] (109, None)
  /\ 109 = GoInt.wrap
             (restOfRules noEntries noEntries integerIndefinite
                (testReceipt2 (sampleId 2))
              + (roundDollarPts (S754_finite false 5066549580791808 (-49))
                 + quarterPts (S754_finite false 5066549580791808 (-49)))).
Proof.
  assert (H1 : isNumber (Total (testReceipt2 (sampleId 2))))
    by (vm_compute; reflexivity).
  assert (H2 : Strconv.ParseFloat (Total (testReceipt2 (sampleId 2)))
               = (S754_finite false 5066549580791808 (-49), None))
    by (vm_compute; reflexivity).
  assert (H3 : run (testReceipt2 (sampleId 2)) = Return [] (109, None))
    by (vm_compute; reflexivity).
  split; [exact H1|]. split; [exact H2|]. split; [exact H3|].
  destruct (findPoints_round_dollar_with_quarter noEntries noEntries
              integerIndefinite (testReceipt2 (sampleId 2)) _ H1 H2)
    as (_ & _ & _ & _ & _ & H).
  exact (H [] 109 H3).
Defined.

(** The names that [strconv.ParseFloat] accepts are no numbers: [Inf]
    parses to the positive infinity, which equals its floor and whose
    remainder by 0.25 is NaN, and [NaN] parses to NaN, which equals
    nothing. *)
Example total_by_name :
  ~ isNumber "Inf" /\ ~ isNumber "NaN"
  /\ Strconv.ParseFloat "Inf" = (S754_infinity false, None)
  /\ roundDollarPts (S754_infinity false) = 50
  /\ quarterPts (S754_infinity false) = 0
  /\ Strconv.ParseFloat "NaN" = (S754_nan, None)
  /\ roundDollarPts S754_nan = 0
  /\ quarterPts S754_nan = 0.
Proof.
  split; [intros H; vm_compute in H; discriminate H|].
  split; [intros H; vm_compute in H; discriminate H|].
  repeat split; vm_compute; reflexivity.
Qed.
